(** * charLCD: a 20x4 character LCD driven over I2C (charLCD20_4.py)

    Shallow embedding of the class [CHAR_LCD_20_4] and the properties of
    its minimal-diff refresh engine.

    The driver object and its environment (the I2C bus, the console and
    the clock) are an explicit state; every method is a computation in a
    state-and-exception monad, so that an exception raised half way
    through a method keeps the mutations made before it, as in Python.

    Python integers are [Z]; a text is a [string] of 8-bit characters,
    the codes that the display can show, and nothing below relies on a
    code being less than 256: a cell may hold any integer.  The entries
    [[row, col]] of [refresh_loc] and [cursor_loc] are pairs. *)

From Stdlib Require Import ZArith Lia Ascii String.
From stdpp Require Import base list strings.

Local Open Scope Z_scope.

(** ** Python values and exceptions *)

(** A cell of [ddram_value] holds either a one-character [str] (the
    constructor stores [" "]) or an [int] ([set_row] stores [ord(...)]). *)
Inductive pyval :=
  | VStr (s : string)
  | VInt (n : Z).

(** [TransportError] is the exception of [I2C.writeto] (an [OSError] on a
    NACK or a timeout). *)
Inductive exn :=
  | TransportError
  | ValueError
  | TypeError
  | IndexError.

Inductive result (A : Type) :=
  | Ok (a : A)
  | Raise (e : exn).
Arguments Ok {A} a.
Arguments Raise {A} e.

(** ** The environment *)

Inductive event :=
  | Writeto (a : Z) (buf : list Z)   (* i2c.writeto(a, bytearray(buf)) *)
  | Sleep (ms : Z)                   (* time.sleep, in milliseconds *)
  | Print (msg : string).

(** [trace] is what the program did so far, oldest first.  [attempts]
    counts the calls of [i2c.writeto]; the call number [k] is refused by
    the bus exactly when [nack k] holds. *)
Record Env := mkEnv {
  trace : list event;
  attempts : nat;
  nack : nat → bool
}.

(** ** The driver object *)

Record CHAR_LCD_20_4 := mkLCD {
  addr : Z;
  backlight : Z;
  ddram_map : list (list Z);
  cursor_loc : Z * Z;
  ddram_value : list (list pyval);
  refresh_loc : list (Z * Z)
}.

Record state := mkState {
  self : CHAR_LCD_20_4;
  env : Env
}.

Definition with_backlight (v : Z) (o : CHAR_LCD_20_4) : CHAR_LCD_20_4 :=
  mkLCD (addr o) v (ddram_map o) (cursor_loc o) (ddram_value o) (refresh_loc o).
Definition with_cursor_loc (v : Z * Z) (o : CHAR_LCD_20_4) : CHAR_LCD_20_4 :=
  mkLCD (addr o) (backlight o) (ddram_map o) v (ddram_value o) (refresh_loc o).
Definition with_ddram_value (v : list (list pyval)) (o : CHAR_LCD_20_4) : CHAR_LCD_20_4 :=
  mkLCD (addr o) (backlight o) (ddram_map o) (cursor_loc o) v (refresh_loc o).
Definition with_refresh_loc (v : list (Z * Z)) (o : CHAR_LCD_20_4) : CHAR_LCD_20_4 :=
  mkLCD (addr o) (backlight o) (ddram_map o) (cursor_loc o) (ddram_value o) v.

(** ** The monad *)

Definition M (A : Type) : Type := state → result A * state.

Global Instance M_ret : MRet M := λ A a s, (Ok a, s).
Global Instance M_bind : MBind M := λ A B f m s,
  match m s with
  | (Ok a, s') => f a s'
  | (Raise e, s') => (Raise e, s')
  end.

Definition raise {A} (e : exn) : M A := λ s, (Raise e, s).
Definition get_self : M CHAR_LCD_20_4 := λ s, (Ok (self s), s).
Definition modify_self (f : CHAR_LCD_20_4 → CHAR_LCD_20_4) : M unit :=
  λ s, (Ok tt, mkState (f (self s)) (env s)).
Definition emit (e : event) : M unit :=
  λ s, (Ok tt, mkState (self s)
                 (mkEnv (trace (env s) ++ [e]) (attempts (env s)) (nack (env s)))).
Definition from_option {A} (e : exn) (o : option A) : M A :=
  match o with Some a => mret a | None => raise e end.

(** [for x in l: body(x)], for a list that the body does not mutate. *)
Fixpoint for_each {A} (l : list A) (body : A → M unit) : M unit :=
  match l with
  | [] => mret tt
  | x :: l' => body x ;; for_each l' body
  end.

(** ** Python built-ins *)

(** [range(lo, hi)] *)
Definition py_range (lo hi : Z) : list Z :=
  (λ k, lo + Z.of_nat k) <$> seq 0 (Z.to_nat (hi - lo)).

(** The position that index [i] denotes in a sequence of length [len]:
    negative indices count from the end, anything else is out of range. *)
Definition py_index (len : nat) (i : Z) : option nat :=
  if bool_decide (0 ≤ i < Z.of_nat len) then Some (Z.to_nat i)
  else if bool_decide (- Z.of_nat len ≤ i < 0) then Some (Z.to_nat (Z.of_nat len + i))
  else None.

(** [l[i]] *)
Definition py_getitem {A} (l : list A) (i : Z) : option A :=
  n ← py_index (length l) i; l !! n.

(** [l[i] = v] *)
Definition py_setitem {A} (l : list A) (i : Z) (v : A) : option (list A) :=
  n ← py_index (length l) i; Some (<[n := v]> l).

(** [ord(c)] *)
Definition ord (c : ascii) : Z := Z.of_N (N_of_ascii c).

(** ["{:20}".format(text)]: a minimum width of 20, the text on the left
    and spaces on the right; a longer text is returned whole. *)
Definition py_format20 (text : string) : string :=
  text +:+ string_of_list_ascii
             (replicate (20 - String.length text)%nat " "%char).

(** [text[i]] on a [str] *)
Definition py_str_getitem (text : string) (i : Z) : option ascii :=
  py_getitem (list_ascii_of_string text) i.

(** [n != v] for an [int] [n]: an [int] never equals a [str]. *)
Definition py_int_ne (n : Z) (v : pyval) : bool :=
  match v with
  | VInt m => negb (n =? m)
  | VStr _ => true
  end.

(** ** Constants of the class *)

Definition CLEAR_DISPLAY : Z := 1.
Definition RETURN_HOME : Z := 2.
Definition ENTRY_MODE : Z := 4.
Definition DISPLAY_CONTROL : Z := 8.
Definition CURSOR_SHIFT : Z := 16.
Definition FUNCTION_CONTROL : Z := 32.
Definition SET_CGRAM : Z := 64.
Definition SET_DDRAM : Z := 128.

Definition DISPLAY_ON : Z := 4.
Definition CURSOR_OFF : Z := 0.
Definition BLINK_OFF : Z := 0.

Definition ENABLE : Z := 4.
Definition DATA : Z := 1.
Definition COMMAND : Z := 0.

Definition BACKLIGHT_ON : Z := 8.
Definition BACKLIGHT_OFF : Z := 0.

(** ** The methods *)

(** [self.i2c.writeto(a, bytearray(buf))] *)
Definition i2c_writeto (a : Z) (buf : list Z) : M unit := λ s,
  let e := env s in
  if nack e (attempts e)
  then (Raise TransportError,
        mkState (self s) (mkEnv (trace e) (S (attempts e)) (nack e)))
  else (Ok tt,
        mkState (self s)
          (mkEnv (trace e ++ [Writeto a buf]) (S (attempts e)) (nack e))).

(** [bytearray([v])] takes values of [range(256)] only; the bytes that
    [send] produces are always in that range, see [send_wire_bytes]. *)
Definition write (data : Z) : M unit :=
  o ← get_self;
  let v := Z.lor data (backlight o) in
  if bool_decide (0 ≤ v < 256) then i2c_writeto (addr o) [v]
  else raise ValueError.

Definition pulse_enable (data : Z) : M unit :=
  write (Z.lor data ENABLE) ;;
  write (Z.land data (Z.lnot ENABLE)).

Definition write4bits (data : Z) : M unit :=
  write data ;;
  pulse_enable data.

Definition send (data mode : Z) : M unit :=
  let high_nib := Z.land data 240 in
  let low_nib := Z.land (Z.shiftl data 4) 240 in
  write4bits (Z.lor high_nib mode) ;;
  write4bits (Z.lor low_nib mode).

Definition set_backlight (enable : bool) : M unit :=
  (if enable then modify_self (with_backlight BACKLIGHT_ON)
   else modify_self (with_backlight BACKLIGHT_OFF)) ;;
  send 0 COMMAND.

Definition clear_display : M unit :=
  send CLEAR_DISPLAY COMMAND ;;
  modify_self (with_cursor_loc (0, 0)) ;;
  modify_self (with_refresh_loc []) ;;
  emit (Sleep 10).

Definition return_home : M unit :=
  send RETURN_HOME COMMAND ;;
  modify_self (with_cursor_loc (0, 0)) ;;
  emit (Sleep 10).

Definition set_entry_mode (dir shift : Z) : M unit :=
  send (Z.lor (Z.lor ENTRY_MODE dir) shift) COMMAND.

Definition set_display_control (dis cur blink : Z) : M unit :=
  send (Z.lor (Z.lor (Z.lor DISPLAY_CONTROL dis) cur) blink) COMMAND.

Definition set_cursur_shift (disp_cursor dir : Z) : M unit :=
  send (Z.lor (Z.lor CURSOR_SHIFT disp_cursor) dir) COMMAND.

Definition set_function_control (bit_mode lines dots : Z) : M unit :=
  send (Z.lor (Z.lor (Z.lor FUNCTION_CONTROL bit_mode) lines) dots) COMMAND.

Definition set_cgram_addr (a : Z) : M unit :=
  send (Z.lor SET_CGRAM a) COMMAND.

Definition set_ddram_addr (a : Z) : M unit :=
  send (Z.lor SET_DDRAM a) COMMAND.

(** [send] starts with [data & 0xF0], which raises [TypeError] on a
    [str] before anything is written. *)
Definition write_ram (data : pyval) : M unit :=
  match data with
  | VInt n => send n DATA
  | VStr _ => raise TypeError
  end.

(** [grid[loc[0]][loc[1]]] *)
Definition py_getitem2 {A} (grid : list (list A)) (r c : Z) : option A :=
  row ← py_getitem grid r; py_getitem row c.

Definition refresh_body (loc : Z * Z) : M unit :=
  o ← get_self;
  a ← from_option IndexError (py_getitem2 (ddram_map o) loc.1 loc.2);
  set_ddram_addr a ;;
  o ← get_self;
  v ← from_option IndexError (py_getitem2 (ddram_value o) loc.1 loc.2);
  write_ram v.

Definition refresh : M unit :=
  o ← get_self;
  for_each (refresh_loc o) refresh_body ;;
  modify_self (with_refresh_loc []).

Definition set_row_body (row : Z) (text : string) (col : Z) : M unit :=
  ch ← from_option IndexError (py_str_getitem text col);
  o ← get_self;
  cell ← from_option IndexError (py_getitem2 (ddram_value o) row col);
  if py_int_ne (ord ch) cell then
    (* self.ddram_value[row][col] = ord(text[col]) *)
    ch ← from_option IndexError (py_str_getitem text col);
    o ← get_self;
    cells ← from_option IndexError (py_getitem (ddram_value o) row);
    cells' ← from_option IndexError (py_setitem cells col (VInt (ord ch)));
    grid' ← from_option IndexError (py_setitem (ddram_value o) row cells');
    modify_self (with_ddram_value grid') ;;
    (* self.refresh_loc.append([row, col]) *)
    o ← get_self;
    modify_self (with_refresh_loc (refresh_loc o ++ [(row, col)]))
  else mret tt.

Definition set_row (row : Z) (text : string) (wrap : bool) : M unit :=
  let text := py_format20 text in
  for_each (py_range 0 20) (set_row_body row text).

(** The object as [__init__] has it before the first bus write. *)
Definition new_lcd (a : Z) : CHAR_LCD_20_4 :=
  let map := [py_range 128 148; py_range 192 212;
              py_range 148 168; py_range 212 232] in
  let width := length (default [] (map !! 0%nat)) in
  mkLCD a BACKLIGHT_ON map (0, 0)
    ((λ _, replicate width (VStr " ")) <$> py_range 0 4) [].

Definition init_body : M unit :=
  emit (Print "Initializing LCD...") ;;
  emit (Sleep 1000) ;;
  write4bits (Z.shiftl 0 4) ;;
  write4bits (Z.shiftl 2 4) ;;
  clear_display ;;
  set_display_control DISPLAY_ON CURSOR_OFF BLINK_OFF ;;
  emit (Print "LCD initialized").

(** [CHAR_LCD_20_4(i2c, a)]: the bus [i2c] is the environment [e]. *)
Definition __init__ (e : Env) (a : Z) : result unit * state :=
  init_body (mkState (new_lcd a) e).

(** ** What goes over the wire *)

(** The three bus bytes of [write4bits d] under backlight bit [bl]:
    setup, enable high, enable low. *)
Definition nibble_wire (bl d : Z) : list Z :=
  [Z.lor d bl; Z.lor (Z.lor d ENABLE) bl; Z.lor (Z.land d (Z.lnot ENABLE)) bl].

(** The six bus bytes of [send data mode]. *)
Definition send_wire (bl data mode : Z) : list Z :=
  nibble_wire bl (Z.lor (Z.land data 240) mode) ++
  nibble_wire bl (Z.lor (Z.land (Z.shiftl data 4) 240) mode).

(** Reading a byte and its mode back from the two setup writes. *)
Definition decode (w_high w_low : Z) : Z * Z :=
  (Z.lor (Z.land w_high 240) (Z.shiftr (Z.land w_low 240) 4), Z.land w_high 1).

(** The bus alone: the bytes [bs] written one after the other to the
    device [a], up to the first refusal. *)
Fixpoint bus_run (a : Z) (bs : list Z) (e : Env) : result unit * Env :=
  match bs with
  | [] => (Ok tt, e)
  | b :: bs' =>
      if nack e (attempts e)
      then (Raise TransportError, mkEnv (trace e) (S (attempts e)) (nack e))
      else bus_run a bs'
             (mkEnv (trace e ++ [Writeto a [b]]) (S (attempts e)) (nack e))
  end.

Definition on_bus (a : Z) (bs : list Z) : M unit := λ s,
  let '(r, e') := bus_run a bs (env s) in (r, mkState (self s) e').

(** The bus accepts the next [n] writes. *)
Definition quiet (e : Env) (n : nat) : Prop :=
  ∀ k, (k < n)%nat → nack e (attempts e + k) = false.

Definition is_byte (b : Z) : bool := bool_decide (0 ≤ b < 256).

Definition wrote (a : Z) (bs : list Z) : list event :=
  (λ b, Writeto a [b]) <$> bs.

(** ** Reading the object *)

(** [ddram_value[r][c]] *)
Definition cell (o : CHAR_LCD_20_4) (r c : Z) : option pyval :=
  py_getitem2 (ddram_value o) r c.

(** The integer stored in a cell ([0] where there is none). *)
Definition stored (o : CHAR_LCD_20_4) (loc : Z * Z) : Z :=
  match cell o loc.1 loc.2 with
  | Some (VInt v) => v
  | _ => 0
  end.

(** The controller address of a cell, as the class comment gives it:
    row 0 from 128, row 1 from 192, row 2 from 148, row 3 from 212. *)
Definition row_base (r : Z) : Z :=
  match r with
  | 0 => 128
  | 1 => 192
  | 2 => 148
  | 3 => 212
  | _ => 0
  end.

Definition ddram_addr (loc : Z * Z) : Z := row_base loc.1 + loc.2.

(** The first 20 characters of [text], padded on the right with spaces
    to length 20, as character codes. *)
Definition padded (text : string) : list Z :=
  let cs := list_ascii_of_string text in
  ord <$> take 20 (cs ++ replicate (20 - length cs)%nat " "%char).

(** The code of column [c] of the padded text. *)
Definition code_at (text : string) (c : Z) : Z :=
  default 0 (padded text !! Z.to_nat c).

(** The bus bytes of one dirty cell in [refresh]: the set-DDRAM-address
    command, then the data write. *)
Definition cell_wire (o : CHAR_LCD_20_4) (loc : Z * Z) : list Z :=
  send_wire (backlight o) (Z.lor SET_DDRAM (ddram_addr loc)) COMMAND ++
  send_wire (backlight o) (stored o loc) DATA.

Definition refresh_wire (o : CHAR_LCD_20_4) : list Z :=
  concat (cell_wire o <$> refresh_loc o).

(** Bus bytes whose register-select bit (bit 0) is [m]. *)
Definition count_rs (m : bool) (bs : list Z) : nat :=
  length (filter (λ b, Z.testbit b 0 = m) bs).

(** ** Well-formed objects *)

Definition loc_ok (loc : Z * Z) : Prop :=
  0 ≤ loc.1 ≤ 3 ∧ 0 ≤ loc.2 ≤ 19.

Definition holds_int (o : CHAR_LCD_20_4) (loc : Z * Z) : Prop :=
  ∃ v, cell o loc.1 loc.2 = Some (VInt v).

Record wf (o : CHAR_LCD_20_4) : Prop := mkWf {
  wf_backlight : backlight o = BACKLIGHT_OFF ∨ backlight o = BACKLIGHT_ON;
  wf_map : ddram_map o = ddram_map (new_lcd 0);
  wf_rows : length (ddram_value o) = 4%nat;
  wf_cols : Forall (λ row, length row = 20%nat) (ddram_value o);
  wf_dirty : Forall (λ loc, loc_ok loc ∧ holds_int o loc) (refresh_loc o)
}.

(** ** Runs of the driver *)

Inductive call :=
  | CallSend (data mode : Z)
  | CallWrite4bits (data : Z)
  | CallWrite (data : Z)
  | CallPulseEnable (data : Z)
  | CallSetBacklight (enable : bool)
  | CallClearDisplay
  | CallReturnHome
  | CallSetEntryMode (dir shift : Z)
  | CallSetDisplayControl (dis cur blink : Z)
  | CallSetCursurShift (disp_cursor dir : Z)
  | CallSetFunctionControl (bit_mode lines dots : Z)
  | CallSetCgramAddr (a : Z)
  | CallSetDdramAddr (a : Z)
  | CallWriteRam (data : pyval)
  | CallRefresh
  | CallSetRow (row : Z) (text : string) (wrap : bool).

Definition perform (c : call) : M unit :=
  match c with
  | CallSend data mode => send data mode
  | CallWrite4bits data => write4bits data
  | CallWrite data => write data
  | CallPulseEnable data => pulse_enable data
  | CallSetBacklight enable => set_backlight enable
  | CallClearDisplay => clear_display
  | CallReturnHome => return_home
  | CallSetEntryMode dir shift => set_entry_mode dir shift
  | CallSetDisplayControl dis cur blink => set_display_control dis cur blink
  | CallSetCursurShift disp_cursor dir => set_cursur_shift disp_cursor dir
  | CallSetFunctionControl bit_mode lines dots =>
      set_function_control bit_mode lines dots
  | CallSetCgramAddr a => set_cgram_addr a
  | CallSetDdramAddr a => set_ddram_addr a
  | CallWriteRam data => write_ram data
  | CallRefresh => refresh
  | CallSetRow row text wrap => set_row row text wrap
  end.

(** The state a call leaves, whether it returns or raises. *)
Definition step (s : state) (c : call) : state := (perform c s).2.

Definition run (calls : list call) (s : state) : state := foldl step s calls.

(** Every [set_row] of the run is given a row of 0..3. *)
Definition row_ok (c : call) : Prop :=
  match c with
  | CallSetRow row _ _ => 0 ≤ row ≤ 3
  | _ => True
  end.

(** The states of a constructed driver after any number of calls. *)
Definition reachable (s : state) : Prop :=
  ∃ e a s0 calls,
    __init__ e a = (Ok tt, s0) ∧ Forall row_ok calls ∧ s = run calls s0.

(** The text of the last [set_row] on row [r] in a run, if any. *)
Definition last_text (calls : list call) (r : Z) : option string :=
  foldl (λ acc c,
           match c with
           | CallSetRow row text _ => if bool_decide (row = r) then Some text else acc
           | _ => acc
           end) None calls.

(** The columns, in ascending order, at which two padded texts differ. *)
Definition diff_cols (t1 t2 : string) : list Z :=
  filter (λ c, code_at t1 c ≠ code_at t2 c) (py_range 0 20).

(** A bus that never refuses, and a driver constructed on it. *)
Definition good_bus : Env := mkEnv [] 0 (λ _, false).
Definition fresh : state := Eval vm_compute in (__init__ good_bus 39).2.

(** ** What [set_row] leaves behind *)

(** Whether [set_row row text] finds column [c] different from the code
    it is about to store. *)
Definition differs (o : CHAR_LCD_20_4) (row : Z) (text : string) (c : Z) : bool :=
  match cell o row c with
  | Some v => py_int_ne (code_at text c) v
  | None => false
  end.

(** The object after the first [n] columns of [set_row row text]. *)
Definition set_row_upto (n : Z) (row : Z) (text : string)
    (o : CHAR_LCD_20_4) : CHAR_LCD_20_4 :=
  let r := Z.to_nat row in
  let old := default [] (ddram_value o !! r) in
  let k := Z.to_nat n in
  with_refresh_loc
    (refresh_loc o ++
       ((λ c, (row, c)) <$> filter (λ c, differs o row text c = true) (py_range 0 n)))
    (with_ddram_value
       (<[r := (VInt <$> take k (padded text)) ++ drop k old]> (ddram_value o)) o).

(** A computation that leaves the object alone (it may use the bus). *)
Definition keeps_self {A} (m : M A) : Prop :=
  ∀ s, self (m s).2 = self s.

(** A computation that maintains a property of the object, also when it
    raises. *)
Definition preserves {A} (P : CHAR_LCD_20_4 → Prop) (m : M A) : Prop :=
  ∀ s, P (self s) → P (self (m s).2).

(** A property of the object that the resets of the backlight, of the
    cursor and of the dirty list cannot break. *)
Record stable (P : CHAR_LCD_20_4 → Prop) : Prop := mkStable {
  stable_backlight : ∀ o (b : bool),
    P o → P (with_backlight (if b then BACKLIGHT_ON else BACKLIGHT_OFF) o);
  stable_cursor : ∀ o, P o → P (with_cursor_loc (0, 0) o);
  stable_clear : ∀ o, P o → P (with_refresh_loc [] o)
}.

Definition is_set_row (c : call) : bool :=
  match c with
  | CallSetRow _ _ _ => true
  | _ => false
  end.

(** A bus that refuses its write number 40 and no other, and a driver
    constructed on it with one row set. *)
Definition flaky_bus : Env := mkEnv [] 0 (λ k, Nat.eqb k 40).
Definition pending : state :=
  Eval vm_compute in step (__init__ flaky_bus 39).2 (CallSetRow 0 "Hi" false).

(** ** The documented parameter values of the commands *)

Definition ENTRY_RIGHT : Z := 0.
Definition ENTRY_LEFT : Z := 2.
Definition DISPLAY_SHIFT_ENABLE : Z := 1.
Definition DISPLAY_SHIFT_DISABLE : Z := 0.

Definition DISPLAY_OFF : Z := 0.
Definition CURSOR_ON : Z := 2.
Definition BLINK_ON : Z := 1.

Definition DISPLAY_MOVE : Z := 8.
Definition CURSOR_MOVE : Z := 0.
Definition MOVE_RIGHT : Z := 4.
Definition MOVE_LEFT : Z := 0.

Definition BIT_MODE_8 : Z := 16.
Definition BIT_MODE_4 : Z := 0.
Definition LINES_2 : Z := 8.
Definition LINES_1 : Z := 0.
Definition DOTS_5X10 : Z := 4.
Definition DOTS_5X8 : Z := 0.

(** ** What a method may do to the bus *)

(** An event of a driver on device [a]: a bus write goes to [a] and
    carries one byte. *)
Definition own_event (a : Z) (ev : event) : Prop :=
  match ev with
  | Writeto a' buf => a' = a ∧ ∃ b, buf = [b] ∧ 0 ≤ b < 256
  | _ => True
  end.

(** A computation that keeps the device address, only adds events of
    its own device to the trace and never rewinds the bus. *)
Definition tidy {A} (a : Z) (m : M A) : Prop :=
  ∀ s, addr (self s) = a →
    addr (self (m s).2) = a ∧
    nack (env (m s).2) = nack (env s) ∧
    (attempts (env s) ≤ attempts (env (m s).2))%nat ∧
    ∃ evs, trace (env (m s).2) = trace (env s) ++ evs ∧ Forall (own_event a) evs.

(** A bus that refuses every write. *)
Definition dead_bus : Env := mkEnv [] 0 (λ _, true).

(** The events of the constructor on device [a] with an accepting bus. *)
Definition init_events (a : Z) : list event :=
  [Print "Initializing LCD..."; Sleep 1000] ++
  wrote a [8; 12; 8] ++ wrote a [40; 44; 40] ++
  wrote a [8; 12; 8; 24; 28; 24] ++ [Sleep 10] ++
  wrote a [8; 12; 8; 200; 204; 200] ++
  [Print "LCD initialized"].

(** A new driver after [set_row(0, "A")] and [set_row(0, "B")], and one
    after a [set_row] of each of its four rows. *)
Definition set_twice : state :=
  run [CallSetRow 0 "A" false; CallSetRow 0 "B" false] fresh.
Definition all_rows_set : state :=
  run [CallSetRow 0 "" false; CallSetRow 1 "" false;
       CallSetRow 2 "" false; CallSetRow 3 "" false] fresh.


(** * Properties *)

(** ** Bytes on the wire *)

Lemma byte_cases (P : Z → bool) :
  forallb P (py_range 0 256) = true → ∀ d, 0 ≤ d < 256 → P d = true.
Proof.
  intros H d Hd. rewrite forallb_forall in H. apply H.
  apply list_elem_of_In, list_elem_of_fmap. exists (Z.to_nat d).
  split; [lia|]. apply elem_of_seq. lia.
Qed.

Lemma land_240_mod d : Z.land d 240 = Z.land (d mod 256) 240.
Proof.
  change 256 with (2 ^ 8). rewrite <- Z.land_ones by lia.
  rewrite <- Z.land_assoc. reflexivity.
Qed.

Lemma land_shiftl_240_mod d :
  Z.land (Z.shiftl d 4) 240 = Z.land (Z.shiftl (d mod 256) 4) 240.
Proof.
  rewrite (land_240_mod (Z.shiftl d 4)), (land_240_mod (Z.shiftl (d mod 256) 4)).
  f_equal. rewrite !Z.shiftl_mul_pow2 by lia. change (2 ^ 4) with 16.
  rewrite Z.mul_mod_idemp_l by lia. reflexivity.
Qed.

(** Only the low byte of [data] reaches the wire. *)
Lemma send_wire_mod bl data mode :
  send_wire bl data mode = send_wire bl (data mod 256) mode.
Proof.
  unfold send_wire.
  rewrite (land_240_mod data), (land_shiftl_240_mod data). reflexivity.
Qed.

Lemma send_wire_bytes bl data mode :
  bl = BACKLIGHT_OFF ∨ bl = BACKLIGHT_ON → mode = COMMAND ∨ mode = DATA →
  forallb is_byte (send_wire bl data mode) = true.
Proof.
  intros Hbl Hmode. rewrite send_wire_mod.
  assert (0 ≤ data mod 256 < 256) as Hd by (apply Z.mod_pos_bound; lia).
  revert Hd. generalize (data mod 256). intros d Hd.
  destruct Hbl as [-> | ->], Hmode as [-> | ->];
    match goal with
    | |- forallb is_byte (send_wire ?b d ?m) = true =>
        apply (byte_cases (λ x, forallb is_byte (send_wire b x m)));
          [vm_compute; reflexivity | exact Hd]
    end.
Qed.

(** ** The bus *)

Lemma bus_run_app a l1 l2 e :
  bus_run a (l1 ++ l2) e =
  match bus_run a l1 e with
  | (Ok _, e') => bus_run a l2 e'
  | (Raise x, e') => (Raise x, e')
  end.
Proof.
  revert e. induction l1 as [|b l1 IH]; intros e; cbn; [reflexivity|].
  destruct (nack e (attempts e)); [reflexivity | apply IH].
Qed.

Lemma bus_run_quiet a bs e :
  quiet e (length bs) →
  bus_run a bs e =
  (Ok tt, mkEnv (trace e ++ wrote a bs) (attempts e + length bs) (nack e)).
Proof.
  revert e. induction bs as [|b bs IH]; intros e Hq; cbn.
  - destruct e; cbn. rewrite app_nil_r, Nat.add_0_r. reflexivity.
  - pose proof (Hq 0%nat ltac:(cbn; lia)) as H0. rewrite Nat.add_0_r in H0.
    rewrite H0, IH; cbn.
    + rewrite <- app_assoc. cbn. do 2 f_equal. lia.
    + intros k Hk. specialize (Hq (S k) ltac:(cbn; lia)).
      rewrite <- Hq. cbn. f_equal. lia.
Qed.

Lemma bus_run_nack a bs e :
  (∃ k, (k < length bs)%nat ∧ nack e (attempts e + k) = true) →
  ∃ e', bus_run a bs e = (Raise TransportError, e').
Proof.
  revert e. induction bs as [|b bs IH]; intros e (k & Hk & Hn); cbn in *; [lia|].
  destruct (nack e (attempts e)) eqn:E; [eauto|].
  apply IH. destruct k as [|k].
  - rewrite Nat.add_0_r in Hn. congruence.
  - exists k. split; [lia|]. cbn. rewrite <- Hn. f_equal. lia.
Qed.

Lemma bind_on_bus a l1 l2 (m k : M unit) o e :
  m (mkState o e) = on_bus a l1 (mkState o e) →
  (∀ e', k (mkState o e') = on_bus a l2 (mkState o e')) →
  (m ;; k) (mkState o e) = on_bus a (l1 ++ l2) (mkState o e).
Proof.
  intros Hm Hk. unfold mbind, M_bind. rewrite Hm.
  unfold on_bus at 1 2; cbn. rewrite bus_run_app.
  destruct (bus_run a l1 e) as [[u|x] e']; [|reflexivity].
  rewrite Hk. reflexivity.
Qed.

Lemma write_on_bus o e d :
  is_byte (Z.lor d (backlight o)) = true →
  write d (mkState o e) = on_bus (addr o) [Z.lor d (backlight o)] (mkState o e).
Proof.
  intros H. unfold write, on_bus, is_byte, mbind, M_bind, get_self in *; cbn.
  rewrite H. unfold i2c_writeto; cbn.
  destruct (nack e (attempts e)); reflexivity.
Qed.

Lemma write4bits_on_bus o e d :
  forallb is_byte (nibble_wire (backlight o) d) = true →
  write4bits d (mkState o e) =
  on_bus (addr o) (nibble_wire (backlight o) d) (mkState o e).
Proof.
  cbn [forallb nibble_wire]. rewrite !andb_true_iff. intros (H1 & H2 & H3 & _).
  unfold write4bits, pulse_enable.
  apply (bind_on_bus _ [_] [_; _]); [by apply write_on_bus|]. intros e1.
  apply (bind_on_bus _ [_] [_]); [by apply write_on_bus|]. intros e2.
  by apply write_on_bus.
Qed.

Lemma send_on_bus o e data mode :
  backlight o = BACKLIGHT_OFF ∨ backlight o = BACKLIGHT_ON →
  mode = COMMAND ∨ mode = DATA →
  send data mode (mkState o e) =
  on_bus (addr o) (send_wire (backlight o) data mode) (mkState o e).
Proof.
  intros Hbl Hmode. pose proof (send_wire_bytes _ data _ Hbl Hmode) as Hb.
  unfold send_wire in *. rewrite forallb_app, andb_true_iff in Hb.
  destruct Hb as [Hhi Hlo]. unfold send.
  apply bind_on_bus; [by apply write4bits_on_bus|].
  intros e1. by apply write4bits_on_bus.
Qed.

Lemma on_bus_quiet a bs o e :
  quiet e (length bs) →
  on_bus a bs (mkState o e) =
  (Ok tt, mkState o (mkEnv (trace e ++ wrote a bs)
                       (attempts e + length bs) (nack e))).
Proof. intros H. unfold on_bus; cbn. by rewrite bus_run_quiet. Qed.

Lemma on_bus_nack a bs o e :
  (∃ k, (k < length bs)%nat ∧ nack e (attempts e + k) = true) →
  ∃ e', on_bus a bs (mkState o e) = (Raise TransportError, mkState o e').
Proof.
  intros H. destruct (bus_run_nack a bs e H) as [e' E].
  exists e'. unfold on_bus; cbn. by rewrite E.
Qed.

(** ** Methods that only use the bus *)

Lemma keeps_self_bind {A B} (m : M A) (k : A → M B) :
  keeps_self m → (∀ a, keeps_self (k a)) → keeps_self (m ≫= k).
Proof.
  intros Hm Hk s. unfold mbind, M_bind. specialize (Hm s).
  destruct (m s) as [[a|x] s']; cbn in *; [|done].
  rewrite Hk. done.
Qed.

Lemma keeps_self_raise {A} x : keeps_self (@raise A x).
Proof. done. Qed.

Lemma keeps_self_get : keeps_self get_self.
Proof. done. Qed.

Lemma keeps_self_emit ev : keeps_self (emit ev).
Proof. done. Qed.

Lemma keeps_self_from_option {A} x (o : option A) : keeps_self (from_option x o).
Proof. destruct o; done. Qed.

Lemma keeps_self_writeto a buf : keeps_self (i2c_writeto a buf).
Proof. intros s. unfold i2c_writeto. by destruct (nack _ _). Qed.

Lemma keeps_self_write d : keeps_self (write d).
Proof.
  apply keeps_self_bind; [apply keeps_self_get|]. intros o.
  cbv zeta. destruct (bool_decide _);
    [apply keeps_self_writeto | apply keeps_self_raise].
Qed.

Lemma keeps_self_write4bits d : keeps_self (write4bits d).
Proof.
  apply keeps_self_bind; [apply keeps_self_write | intros _].
  apply keeps_self_bind; [|intros _]; apply keeps_self_write.
Qed.

Lemma keeps_self_send data mode : keeps_self (send data mode).
Proof.
  apply keeps_self_bind; [|intros ?]; apply keeps_self_write4bits.
Qed.

Lemma keeps_self_write_ram v : keeps_self (write_ram v).
Proof. destruct v; [apply keeps_self_raise | apply keeps_self_send]. Qed.

Lemma keeps_self_for_each {A} (l : list A) body :
  (∀ x, keeps_self (body x)) → keeps_self (for_each l body).
Proof.
  intros H. induction l as [|x l IH]; [done|].
  apply keeps_self_bind; [apply H | intros _; apply IH].
Qed.

Lemma keeps_self_refresh_body loc : keeps_self (refresh_body loc).
Proof.
  unfold refresh_body.
  apply keeps_self_bind; [apply keeps_self_get | intros o].
  apply keeps_self_bind; [apply keeps_self_from_option | intros a].
  apply keeps_self_bind; [apply keeps_self_send | intros _].
  apply keeps_self_bind; [apply keeps_self_get | intros o'].
  apply keeps_self_bind; [apply keeps_self_from_option | intros v].
  apply keeps_self_write_ram.
Qed.

(** ** Python indexing, ranges and texts *)

Lemma py_index_nat len i :
  0 ≤ i < Z.of_nat len → py_index len i = Some (Z.to_nat i).
Proof. intros H. unfold py_index. by rewrite bool_decide_true. Qed.

Lemma py_getitem_nat {A} (l : list A) i :
  0 ≤ i < Z.of_nat (length l) → py_getitem l i = l !! Z.to_nat i.
Proof. intros H. unfold py_getitem. by rewrite py_index_nat. Qed.

Lemma py_setitem_nat {A} (l : list A) i v :
  0 ≤ i < Z.of_nat (length l) → py_setitem l i v = Some (<[Z.to_nat i := v]> l).
Proof. intros H. unfold py_setitem. by rewrite py_index_nat. Qed.

Lemma py_range_snoc lo n : lo ≤ n → py_range lo (n + 1) = py_range lo n ++ [n].
Proof.
  intros H. unfold py_range.
  replace (Z.to_nat (n + 1 - lo)) with (S (Z.to_nat (n - lo))) by lia.
  rewrite seq_S, fmap_app. cbn. do 2 f_equal. lia.
Qed.

Lemma elem_of_py_range lo hi c : c ∈ py_range lo hi ↔ lo ≤ c < hi.
Proof.
  unfold py_range. rewrite list_elem_of_fmap. split.
  - intros (k & -> & Hk). apply elem_of_seq in Hk. lia.
  - intros H. exists (Z.to_nat (c - lo)). split; [lia|].
    apply elem_of_seq. lia.
Qed.

Lemma py_range_length lo hi : length (py_range lo hi) = Z.to_nat (hi - lo).
Proof. unfold py_range. by rewrite length_fmap, length_seq. Qed.

Lemma py_range_lookup lo hi (k : nat) :
  (k < Z.to_nat (hi - lo))%nat → py_range lo hi !! k = Some (lo + Z.of_nat k).
Proof.
  intros H. unfold py_range. rewrite list_lookup_fmap, lookup_seq_lt by done.
  done.
Qed.

Lemma list_ascii_of_string_app a b :
  list_ascii_of_string (a +:+ b) = list_ascii_of_string a ++ list_ascii_of_string b.
Proof.
  induction a as [|c a IH]; [done|].
  change (String c a +:+ b) with (String c (a +:+ b)). cbn. by rewrite IH.
Qed.

Lemma string_length_chars s : String.length s = length (list_ascii_of_string s).
Proof. induction s as [|c s IH]; cbn; [done | by rewrite IH]. Qed.

Lemma format20_chars text :
  list_ascii_of_string (py_format20 text) =
  list_ascii_of_string text ++
  replicate (20 - length (list_ascii_of_string text)) " "%char.
Proof.
  unfold py_format20.
  rewrite list_ascii_of_string_app, list_ascii_of_string_of_list_ascii.
  by rewrite string_length_chars.
Qed.

Lemma padded_length text : length (padded text) = 20%nat.
Proof.
  unfold padded. rewrite length_fmap, length_take, length_app, length_replicate.
  lia.
Qed.

Lemma format20_getitem text c :
  0 ≤ c < 20 →
  ∃ ch, py_str_getitem (py_format20 text) c = Some ch ∧
        padded text !! Z.to_nat c = Some (ord ch).
Proof.
  intros Hc. unfold py_str_getitem. rewrite format20_chars.
  set (cs := list_ascii_of_string text ++ _).
  assert (20 ≤ length cs)%nat as Hlen.
  { unfold cs. rewrite length_app, length_replicate. lia. }
  rewrite py_getitem_nat by lia.
  destruct (lookup_lt_is_Some_2 cs (Z.to_nat c) ltac:(lia)) as [ch Hch].
  exists ch. split; [done|].
  unfold padded. fold cs. rewrite list_lookup_fmap, lookup_take_lt by lia.
  by rewrite Hch.
Qed.

Lemma code_at_lookup text c :
  0 ≤ c < 20 → padded text !! Z.to_nat c = Some (code_at text c).
Proof.
  intros Hc. unfold code_at.
  destruct (lookup_lt_is_Some_2 (padded text) (Z.to_nat c)) as [v ->]; [|done].
  rewrite padded_length. lia.
Qed.

Lemma for_each_app {A} (l1 l2 : list A) body s :
  for_each (l1 ++ l2) body s = (for_each l1 body ;; for_each l2 body) s.
Proof.
  revert s. induction l1 as [|x l1 IH]; intros s; [done|].
  cbn [app for_each]. unfold mbind, M_bind in *.
  destruct (body x s) as [[u|y] s']; [apply IH | done].
Qed.

(** ** [set_row] *)

Lemma bind_get {B} (k : CHAR_LCD_20_4 → M B) s :
  (get_self ≫= k) s = k (self s) s.
Proof. done. Qed.

Lemma bind_from_some {A B} x (a : A) (k : A → M B) s :
  (from_option x (Some a) ≫= k) s = k a s.
Proof. done. Qed.

Lemma bind_modify {B} f (k : unit → M B) s :
  (modify_self f ≫= k) s = k tt (mkState (f (self s)) (env s)).
Proof. done. Qed.

Lemma set_row_body_eq o e row text col ch cells v cells' grid' :
  py_str_getitem text col = Some ch →
  py_getitem (ddram_value o) row = Some cells →
  py_getitem cells col = Some v →
  py_setitem cells col (VInt (ord ch)) = Some cells' →
  py_setitem (ddram_value o) row cells' = Some grid' →
  set_row_body row text col (mkState o e) =
  (Ok tt,
   mkState (if py_int_ne (ord ch) v
            then with_refresh_loc (refresh_loc o ++ [(row, col)])
                   (with_ddram_value grid' o)
            else o) e).
Proof.
  intros Hch Hrow Hcell Hset Hgrid.
  unfold set_row_body, py_getitem2. rewrite Hch.
  rewrite bind_from_some, bind_get. cbn [self]. rewrite Hrow.
  cbn [mbind option_bind]. rewrite Hcell, bind_from_some.
  destruct (py_int_ne (ord ch) v); [|done].
  rewrite bind_from_some, bind_get. cbn [self].
  rewrite Hrow, bind_from_some, Hset, bind_from_some, Hgrid, bind_from_some.
  rewrite bind_modify, bind_get. done.
Qed.

Lemma splice_step {A} (new old : list A) k x :
  new !! k = Some x → (k < length old)%nat →
  <[k := x]> (take k new ++ drop k old) = take (S k) new ++ drop (S k) old.
Proof.
  intros Hnew Hold.
  pose proof (lookup_lt_Some _ _ _ Hnew) as Hk.
  destruct (lookup_lt_is_Some_2 old k Hold) as [y Hy].
  rewrite insert_app_r_alt by (rewrite length_take; lia).
  rewrite length_take, Nat.min_l, Nat.sub_diag by lia.
  rewrite (drop_S _ _ _ Hy). cbn.
  rewrite (take_S_r _ _ _ Hnew), <- app_assoc. done.
Qed.

Lemma py_int_ne_false n v : py_int_ne n v = false → v = VInt n.
Proof.
  destruct v as [s|m]; cbn; [done|]. intros H.
  apply negb_false_iff, Z.eqb_eq in H. by subst.
Qed.

Section SetRow.
Context (o : CHAR_LCD_20_4) (row : Z) (text : string).
Hypothesis Hrow : 0 ≤ row ≤ 3.
Hypothesis Hrows : length (ddram_value o) = 4%nat.
Hypothesis Hcols : Forall (λ cells, length cells = 20%nat) (ddram_value o).

Local Abbreviation r := (Z.to_nat row).
Local Abbreviation old := (default [] (ddram_value o !! Z.to_nat row)).

Lemma old_row : ddram_value o !! r = Some old.
Proof using All.
  destruct (lookup_lt_is_Some_2 (ddram_value o) r) as [x ->]; [|done].
  lia.
Qed.

Lemma old_length : length old = 20%nat.
Proof using All.
  eapply (Forall_lookup_1 _ _ _ _ Hcols), old_row.
Qed.

Lemma cell_old c :
  0 ≤ c < 20 → cell o row c = old !! Z.to_nat c.
Proof using All.
  intros Hc. unfold cell, py_getitem2.
  rewrite py_getitem_nat by lia. rewrite old_row. cbn.
  rewrite py_getitem_nat; [done|]. rewrite old_length. lia.
Qed.

Lemma set_row_upto_0 : set_row_upto 0 row text o = o.
Proof using All.
  unfold set_row_upto.
  change (py_range 0 0) with (@nil Z). change (Z.to_nat 0) with 0%nat.
  rewrite filter_nil, fmap_nil, take_0, fmap_nil, app_nil_l, app_nil_r, drop_0.
  rewrite (list_insert_id _ _ _ old_row).
  by destruct o.
Qed.

Lemma set_row_upto_S (k : nat) ch v :
  (k < 20)%nat →
  padded text !! k = Some (ord ch) →
  old !! k = Some v →
  set_row_upto (Z.of_nat k + 1) row text o =
  let ok := set_row_upto (Z.of_nat k) row text o in
  if py_int_ne (ord ch) v
  then with_refresh_loc (refresh_loc ok ++ [(row, Z.of_nat k)])
         (with_ddram_value
            (<[r := <[k := VInt (ord ch)]>
                      ((VInt <$> take k (padded text)) ++ drop k old)]>
               (ddram_value ok)) ok)
  else ok.
Proof using All.
  intros Hk Hpad Hold.
  assert (code_at text (Z.of_nat k) = ord ch) as Hcode.
  { unfold code_at. by rewrite Nat2Z.id, Hpad. }
  assert (differs o row text (Z.of_nat k) = py_int_ne (ord ch) v) as Hdiff.
  { unfold differs. rewrite cell_old, Nat2Z.id, Hold, Hcode by lia. done. }
  assert (<[k := VInt (ord ch)]>
            ((VInt <$> take k (padded text)) ++ drop k old) =
          (VInt <$> take (S k) (padded text)) ++ drop (S k) old) as Hsplice.
  { rewrite !fmap_take. apply splice_step.
    - by rewrite list_lookup_fmap, Hpad.
    - rewrite old_length. lia. }
  cbv zeta. unfold set_row_upto.
  rewrite py_range_snoc, filter_app by lia.
  replace (Z.to_nat (Z.of_nat k + 1)) with (S k) by lia.
  rewrite Nat2Z.id. cbn [refresh_loc ddram_value with_refresh_loc
    with_ddram_value addr backlight ddram_map cursor_loc].
  rewrite filter_cons, filter_nil, Hdiff.
  destruct (py_int_ne (ord ch) v) eqn:Hne.
  - rewrite decide_True by done. rewrite fmap_app, app_assoc. cbn.
    rewrite list_insert_insert_eq, Hsplice. done.
  - rewrite decide_False by done. rewrite app_nil_r.
    apply py_int_ne_false in Hne. subst v.
    rewrite <- Hsplice. rewrite (list_insert_id _ k (VInt (ord ch))); [done|].
    rewrite lookup_app_r by (rewrite length_fmap, length_take, padded_length; lia).
    rewrite length_fmap, length_take, padded_length, Nat.min_l by lia.
    rewrite Nat.sub_diag, lookup_drop, Nat.add_0_r. done.
Qed.

Lemma set_row_loop e (k : nat) :
  (k ≤ 20)%nat →
  for_each (py_range 0 (Z.of_nat k)) (set_row_body row (py_format20 text))
    (mkState o e) =
  (Ok tt, mkState (set_row_upto (Z.of_nat k) row text o) e).
Proof using All.
  induction k as [|k IH]; intros Hk.
  - change (Z.of_nat 0) with 0. change (py_range 0 0) with (@nil Z).
    by rewrite set_row_upto_0.
  - rewrite Nat2Z.inj_succ, <- Z.add_1_r, py_range_snoc, for_each_app by lia.
    unfold mbind at 1, M_bind. rewrite IH by lia.
    destruct (format20_getitem text (Z.of_nat k) ltac:(lia)) as (ch & Hch & Hpad).
    rewrite Nat2Z.id in Hpad.
    destruct (lookup_lt_is_Some_2 old k) as [v Hv]; [rewrite old_length; lia|].
    rewrite (set_row_upto_S k ch v) by (done || lia). cbv zeta.
    set (ok := set_row_upto (Z.of_nat k) row text o).
    set (cells := (VInt <$> take k (padded text)) ++ drop k old).
    assert (ddram_value ok = <[r := cells]> (ddram_value o)) as Hgrid.
    { subst ok cells. unfold set_row_upto.
      cbn [ddram_value with_refresh_loc with_ddram_value].
      by rewrite Nat2Z.id. }
    assert (length cells = 20%nat) as Hlen.
    { unfold cells.
      rewrite length_app, length_fmap, length_take, length_drop,
        padded_length, old_length. lia. }
    cbn [for_each]. unfold mbind, M_bind.
    rewrite (set_row_body_eq ok e row _ _ ch cells v
               (<[k := VInt (ord ch)]> cells)
               (<[r := <[k := VInt (ord ch)]> cells]> (ddram_value ok))).
    + done.
    + done.
    + rewrite py_getitem_nat by (rewrite Hgrid, length_insert; lia).
      rewrite Hgrid. apply list_lookup_insert_eq. lia.
    + rewrite py_getitem_nat, Nat2Z.id by lia. unfold cells.
      rewrite lookup_app_r by (rewrite length_fmap, length_take, padded_length; lia).
      rewrite length_fmap, length_take, padded_length, Nat.min_l by lia.
      by rewrite Nat.sub_diag, lookup_drop, Nat.add_0_r.
    + rewrite py_setitem_nat, Nat2Z.id by lia. done.
    + rewrite py_setitem_nat by (rewrite Hgrid, length_insert; lia). done.
Qed.

(** [set_row] with a row of 0..3 returns, and leaves this object. *)
Lemma set_row_eq e wrap :
  set_row row text wrap (mkState o e) =
  (Ok tt, mkState (set_row_upto 20 row text o) e).
Proof using All. apply (set_row_loop e 20). lia. Qed.

Lemma set_row_upto_grid :
  ddram_value (set_row_upto 20 row text o) =
  <[r := VInt <$> padded text]> (ddram_value o).
Proof using All.
  unfold set_row_upto. cbn [ddram_value with_refresh_loc with_ddram_value].
  rewrite drop_ge by (rewrite old_length; lia).
  rewrite take_ge, app_nil_r by (rewrite padded_length; lia). done.
Qed.
End SetRow.

(** ** Properties of the object that the methods maintain *)

Lemma preserves_keeps {A} P (m : M A) : keeps_self m → preserves P m.
Proof. intros H s HP. by rewrite H. Qed.

Lemma preserves_bind {A B} P (m : M A) (k : A → M B) :
  preserves P m → (∀ a, preserves P (k a)) → preserves P (m ≫= k).
Proof.
  intros Hm Hk s HP. unfold mbind, M_bind. specialize (Hm s HP).
  destruct (m s) as [[a|x] s']; cbn in *; [|done].
  by apply Hk.
Qed.

Lemma preserves_modify P f :
  (∀ o, P o → P (f o)) → preserves P (modify_self f).
Proof. intros H s HP. by apply H. Qed.

Lemma preserves_send P data mode : preserves P (send data mode).
Proof. apply preserves_keeps, keeps_self_send. Qed.

Lemma preserves_refresh P : stable P → preserves P refresh.
Proof.
  intros HP. unfold refresh.
  apply preserves_bind; [apply preserves_keeps, keeps_self_get | intros o].
  apply preserves_bind; [|intros _; apply preserves_modify, HP].
  apply preserves_keeps, keeps_self_for_each, keeps_self_refresh_body.
Qed.

Lemma preserves_clear_display P :
  (∀ o, P o → P (with_cursor_loc (0, 0) o)) →
  (∀ o, P o → P (with_refresh_loc [] o)) →
  preserves P clear_display.
Proof.
  intros Hcur Hclr. unfold clear_display.
  apply preserves_bind; [apply preserves_send | intros _].
  apply preserves_bind; [by apply preserves_modify | intros _].
  apply preserves_bind; [by apply preserves_modify | intros _].
  apply preserves_keeps, keeps_self_emit.
Qed.

Lemma preserves_return_home P : stable P → preserves P return_home.
Proof.
  intros HP. unfold return_home.
  apply preserves_bind; [apply preserves_send | intros _].
  apply preserves_bind; [apply preserves_modify, HP | intros _].
  apply preserves_keeps, keeps_self_emit.
Qed.

Lemma preserves_set_backlight P enable : stable P → preserves P (set_backlight enable).
Proof.
  intros HP. unfold set_backlight.
  apply preserves_bind; [|intros _; apply preserves_send].
  destruct enable; apply preserves_modify; intros o Ho.
  - apply (stable_backlight P HP o true Ho).
  - apply (stable_backlight P HP o false Ho).
Qed.

(** Every method but [set_row] maintains a stable property. *)
Lemma preserves_perform P c :
  stable P → is_set_row c = false → preserves P (perform c).
Proof.
  intros HP Hc. destruct c; cbn [perform]; try discriminate Hc;
    try (apply preserves_send);
    try (apply preserves_keeps;
         first [apply keeps_self_write4bits | apply keeps_self_write
               | apply keeps_self_write_ram]).
  - apply preserves_keeps. unfold pulse_enable.
    apply keeps_self_bind; [|intros _]; apply keeps_self_write.
  - by apply preserves_set_backlight.
  - apply preserves_clear_display; apply HP.
  - by apply preserves_return_home.
  - by apply preserves_refresh.
Qed.

(** The grid is out of reach of every method but [set_row]. *)
Lemma stable_grid g : stable (λ o, ddram_value o = g).
Proof. by split. Qed.

Lemma stable_wf : stable wf.
Proof.
  split.
  - intros o b [H1 H2 H3 H4 H5]. split; try done.
    cbn. destruct b; auto.
  - intros o [H1 H2 H3 H4 H5]. by split.
  - intros o [H1 H2 H3 H4 H5]. by split.
Qed.

(** ** The address map *)

Lemma ddram_map_lookup a r c :
  0 ≤ r ≤ 3 → 0 ≤ c ≤ 19 →
  py_getitem2 (ddram_map (new_lcd a)) r c = Some (ddram_addr (r, c)).
Proof.
  intros Hr Hc. unfold py_getitem2.
  change (ddram_map (new_lcd a)) with
    [py_range 128 148; py_range 192 212; py_range 148 168; py_range 212 232].
  rewrite py_getitem_nat by (cbn [length]; lia).
  assert ([py_range 128 148; py_range 192 212; py_range 148 168;
           py_range 212 232] !! Z.to_nat r =
          Some (py_range (row_base r) (row_base r + 20))) as ->.
  { assert (r = 0 ∨ r = 1 ∨ r = 2 ∨ r = 3) as [-> | [-> | [-> | ->]]] by lia;
      reflexivity. }
  cbn [mbind option_bind].
  rewrite py_getitem_nat by (rewrite py_range_length; lia).
  rewrite py_range_lookup by lia.
  unfold ddram_addr; cbn [fst snd]. f_equal. lia.
Qed.

Lemma wf_new_lcd a : wf (new_lcd a).
Proof.
  split.
  - by right.
  - done.
  - done.
  - cbn. repeat constructor.
  - constructor.
Qed.

(** ** [refresh] *)

Lemma refresh_body_on_bus o e loc :
  wf o → loc_ok loc → holds_int o loc →
  refresh_body loc (mkState o e) = on_bus (addr o) (cell_wire o loc) (mkState o e).
Proof.
  intros Hwf Hloc [v Hv]. destruct loc as [r c]. destruct Hloc as [Hr Hc].
  cbn [fst snd] in *. unfold refresh_body. rewrite bind_get. cbn [self fst snd].
  rewrite (wf_map o Hwf), ddram_map_lookup, bind_from_some by done.
  unfold cell_wire. apply bind_on_bus.
  - apply send_on_bus; [apply (wf_backlight o Hwf) | by left].
  - intros e'. rewrite bind_get. cbn [self]. unfold cell in Hv.
    rewrite Hv, bind_from_some. unfold stored, cell. cbn [fst snd]. rewrite Hv.
    apply send_on_bus; [apply (wf_backlight o Hwf) | by right].
Qed.

Lemma refresh_loop_on_bus o e l :
  wf o → Forall (λ loc, loc_ok loc ∧ holds_int o loc) l →
  for_each l refresh_body (mkState o e) =
  on_bus (addr o) (concat (cell_wire o <$> l)) (mkState o e).
Proof.
  intros Hwf Hl. revert e. induction Hl as [|loc l [Hok Hint] Hl IH]; intros e.
  - done.
  - cbn [for_each fmap list_fmap concat]. apply bind_on_bus; [|done].
    by apply refresh_body_on_bus.
Qed.

Lemma refresh_eq o e :
  wf o →
  refresh (mkState o e) =
  (on_bus (addr o) (refresh_wire o) ;; modify_self (with_refresh_loc []))
    (mkState o e).
Proof.
  intros Hwf. unfold refresh. rewrite bind_get. cbn [self].
  unfold mbind, M_bind.
  by rewrite (refresh_loop_on_bus o e _ Hwf (wf_dirty o Hwf)).
Qed.

Lemma refresh_quiet o e :
  wf o → quiet e (length (refresh_wire o)) →
  refresh (mkState o e) =
  (Ok tt, mkState (with_refresh_loc [] o)
            (mkEnv (trace e ++ wrote (addr o) (refresh_wire o))
               (attempts e + length (refresh_wire o)) (nack e))).
Proof.
  intros Hwf Hq. rewrite refresh_eq by done.
  unfold mbind, M_bind. by rewrite on_bus_quiet.
Qed.

Lemma refresh_nack o e :
  wf o →
  (∃ k, (k < length (refresh_wire o))%nat ∧ nack e (attempts e + k) = true) →
  ∃ e', refresh (mkState o e) = (Raise TransportError, mkState o e').
Proof.
  intros Hwf Hn. rewrite refresh_eq by done.
  destruct (on_bus_nack (addr o) _ o e Hn) as [e' E].
  exists e'. unfold mbind, M_bind. by rewrite E.
Qed.

(** Whatever the state, a [refresh] that raises leaves the object as it
    was, and one that returns has only emptied the dirty list. *)
Lemma refresh_self s r s' :
  refresh s = (r, s') →
  self s' = match r with
            | Ok _ => with_refresh_loc [] (self s)
            | Raise _ => self s
            end.
Proof.
  unfold refresh. rewrite bind_get. unfold mbind, M_bind.
  pose proof (keeps_self_for_each (refresh_loc (self s)) refresh_body
                keeps_self_refresh_body s) as Hk.
  destruct (for_each _ _ s) as [[u|x] s1]; cbn in *.
  - intros [= <- <-]. cbn. by rewrite Hk.
  - intros [= <- <-]. done.
Qed.

Lemma cell_wire_length o loc : length (cell_wire o loc) = 12%nat.
Proof. done. Qed.

Lemma refresh_wire_length o :
  length (refresh_wire o) = (12 * length (refresh_loc o))%nat.
Proof.
  unfold refresh_wire. induction (refresh_loc o) as [|loc l IH]; [done|].
  cbn [fmap list_fmap concat]. rewrite length_app, IH, cell_wire_length.
  cbn [length]. lia.
Qed.

Lemma count_rs_app m l1 l2 :
  count_rs m (l1 ++ l2) = (count_rs m l1 + count_rs m l2)%nat.
Proof. unfold count_rs. by rewrite filter_app, length_app. Qed.

Lemma count_rs_send m bl data mode :
  bl = BACKLIGHT_OFF ∨ bl = BACKLIGHT_ON → mode = COMMAND ∨ mode = DATA →
  count_rs m (send_wire bl data mode) =
  if bool_decide (Z.testbit mode 0 = m) then 6%nat else 0%nat.
Proof.
  intros Hbl Hmode. rewrite send_wire_mod.
  assert (0 ≤ data mod 256 < 256) as Hd by (apply Z.mod_pos_bound; lia).
  revert Hd. generalize (data mod 256). intros d Hd.
  destruct m, Hbl as [-> | ->], Hmode as [-> | ->];
    match goal with
    | |- count_rs ?m (send_wire ?b d ?md) = ?n =>
        assert (forallb (λ x, bool_decide (count_rs m (send_wire b x md) = n))
                  (py_range 0 256) = true) as Hall by (vm_compute; reflexivity);
        pose proof (byte_cases _ Hall d Hd) as Hone;
        apply bool_decide_eq_true_1 in Hone; exact Hone
    end.
Qed.

Lemma count_rs_refresh o :
  wf o →
  count_rs true (refresh_wire o) = (6 * length (refresh_loc o))%nat ∧
  count_rs false (refresh_wire o) = (6 * length (refresh_loc o))%nat.
Proof.
  intros Hwf. pose proof (wf_backlight o Hwf) as Hbl.
  unfold refresh_wire. induction (refresh_loc o) as [|loc l [IH1 IH2]]; [done|].
  cbn [fmap list_fmap concat]. rewrite !count_rs_app, IH1, IH2.
  unfold cell_wire. rewrite !count_rs_app.
  rewrite !count_rs_send by first [done | by left | by right].
  change (Z.testbit COMMAND 0) with false. change (Z.testbit DATA 0) with true.
  repeat case_bool_decide; try congruence. cbn [length]. lia.
Qed.

(** ** Well-formedness along a run *)

Lemma cell_set_row o row text r c :
  length (ddram_value o) = 4%nat →
  Forall (λ cells, length cells = 20%nat) (ddram_value o) →
  0 ≤ row ≤ 3 → 0 ≤ r ≤ 3 → 0 ≤ c ≤ 19 →
  cell (set_row_upto 20 row text o) r c =
  if bool_decide (r = row) then Some (VInt (code_at text c)) else cell o r c.
Proof.
  intros Hrows Hcols Hrow Hr Hc. unfold cell, py_getitem2.
  rewrite set_row_upto_grid by done.
  rewrite !py_getitem_nat by (rewrite ?length_insert; lia).
  case_bool_decide as Heq.
  - subst r. rewrite list_lookup_insert_eq by lia. cbn [mbind option_bind].
    rewrite py_getitem_nat by (rewrite length_fmap, padded_length; lia).
    rewrite list_lookup_fmap, code_at_lookup by lia. done.
  - rewrite list_lookup_insert_ne by lia. done.
Qed.

Lemma wf_set_row o row text :
  wf o → 0 ≤ row ≤ 3 → wf (set_row_upto 20 row text o).
Proof.
  intros [Hbl Hmap Hrows Hcols Hdirty] Hrow. split.
  - done.
  - done.
  - rewrite set_row_upto_grid by done. by rewrite length_insert.
  - rewrite set_row_upto_grid by done. apply Forall_insert; [done|].
    by rewrite length_fmap, padded_length.
  - cbn [set_row_upto refresh_loc with_refresh_loc]. apply Forall_app. split.
    + eapply Forall_impl; [exact Hdirty|]. intros [r c] [Hok [v Hv]].
      split; [done|]. destruct Hok as [Hr Hc]. cbn [fst snd] in *.
      unfold holds_int. cbn [fst snd]. rewrite cell_set_row by done.
      case_bool_decide; eauto.
    + apply Forall_fmap, Forall_forall. intros c Hc.
      apply list_elem_of_filter in Hc as [_ Hc]. apply elem_of_py_range in Hc.
      split; [split; cbn; lia|]. unfold holds_int. cbn [fst snd].
      rewrite cell_set_row by (done || lia).
      rewrite bool_decide_true by done. eauto.
Qed.

Lemma step_set_row o e row text wrap :
  wf o → 0 ≤ row ≤ 3 →
  step (mkState o e) (CallSetRow row text wrap) =
  mkState (set_row_upto 20 row text o) e.
Proof.
  intros Hwf Hrow. unfold step. cbn [perform].
  rewrite set_row_eq; [done | done | apply Hwf | apply Hwf].
Qed.

Lemma step_wf s c : wf (self s) → row_ok c → wf (self (step s c)).
Proof.
  intros Hwf Hc. destruct (is_set_row c) eqn:Hset.
  - destruct c; try discriminate Hset. destruct s as [o e].
    unfold row_ok in Hc. cbn [self] in Hwf.
    rewrite step_set_row by done. by apply wf_set_row.
  - by apply (preserves_perform wf c stable_wf Hset).
Qed.

Lemma run_wf calls s : wf (self s) → Forall row_ok calls → wf (self (run calls s)).
Proof.
  intros Hwf Hcalls. revert s Hwf.
  induction Hcalls as [|c calls Hc Hcalls IH]; intros s Hwf; [done|].
  apply IH. by apply step_wf.
Qed.

Lemma init_self e a : self (__init__ e a).2 = new_lcd a.
Proof.
  assert (preserves (λ o, o = new_lcd a) init_body) as H.
  { unfold init_body.
    apply preserves_bind; [apply preserves_keeps, keeps_self_emit | intros _].
    apply preserves_bind; [apply preserves_keeps, keeps_self_emit | intros _].
    apply preserves_bind; [apply preserves_keeps, keeps_self_write4bits | intros _].
    apply preserves_bind; [apply preserves_keeps, keeps_self_write4bits | intros _].
    apply preserves_bind; [apply preserves_clear_display; by intros o -> | intros _].
    apply preserves_bind; [apply preserves_send | intros _].
    apply preserves_keeps, keeps_self_emit. }
  by apply (H (mkState (new_lcd a) e)).
Qed.

Lemma reachable_wf s : reachable s → wf (self s).
Proof.
  intros (e & a & s0 & calls & Hinit & Hcalls & ->).
  apply run_wf; [|done].
  pose proof (init_self e a) as H. rewrite Hinit in H. cbn in H.
  rewrite H. apply wf_new_lcd.
Qed.

(** ** The grid along a run *)

Lemma run_snoc calls c s : run (calls ++ [c]) s = step (run calls s) c.
Proof. unfold run. by rewrite foldl_app. Qed.

Lemma last_text_snoc calls c r :
  last_text (calls ++ [c]) r =
  match c with
  | CallSetRow row text _ =>
      if bool_decide (row = r) then Some text else last_text calls r
  | _ => last_text calls r
  end.
Proof. unfold last_text. by rewrite foldl_app. Qed.

Lemma cell_new_lcd a r c :
  0 ≤ r ≤ 3 → 0 ≤ c ≤ 19 → cell (new_lcd a) r c = Some (VStr " ").
Proof.
  intros Hr Hc. unfold cell, py_getitem2.
  change (ddram_value (new_lcd a)) with (replicate 4 (replicate 20 (VStr " "))).
  rewrite py_getitem_nat by (rewrite length_replicate; lia).
  rewrite lookup_replicate_2 by lia. cbn [mbind option_bind].
  rewrite py_getitem_nat by (rewrite length_replicate; lia).
  by rewrite lookup_replicate_2 by lia.
Qed.

Lemma step_grid s c :
  is_set_row c = false → ddram_value (self (step s c)) = ddram_value (self s).
Proof.
  intros Hc.
  by apply (preserves_perform _ c (stable_grid (ddram_value (self s))) Hc).
Qed.

(** Every cell holds the code that the last [set_row] on its row gave
    it, or the constructor's [" "] when there was none. *)
Lemma run_cells e a calls r c :
  Forall row_ok calls → 0 ≤ r ≤ 3 → 0 ≤ c ≤ 19 →
  cell (self (run calls (__init__ e a).2)) r c =
  Some (match last_text calls r with
        | Some text => VInt (code_at text c)
        | None => VStr " "
        end).
Proof.
  intros Hcalls Hr Hc. induction calls as [|k calls IH] using rev_ind.
  - cbn [run foldl]. unfold cell. rewrite init_self. by apply cell_new_lcd.
  - apply Forall_app in Hcalls as [Hcalls Hk]. specialize (IH Hcalls).
    rewrite Forall_singleton in Hk.
    assert (wf (self (run calls (__init__ e a).2))) as Hwf.
    { apply run_wf; [|done]. rewrite init_self. apply wf_new_lcd. }
    rewrite run_snoc, last_text_snoc.
    destruct (is_set_row k) eqn:Hset.
    + destruct k; try discriminate Hset. unfold row_ok in Hk.
      destruct (run calls (__init__ e a).2) as [o e'] eqn:E. cbn [self] in *.
      rewrite step_set_row by done. cbn [self].
      rewrite cell_set_row by (done || apply Hwf).
      rewrite (bool_decide_ext (r = row) (row = r)) by done.
      case_bool_decide; done.
    + unfold cell in *. rewrite step_grid by done. rewrite IH.
      by destruct k.
Qed.

(** * The claims *)

(** ** The byte transport *)

Lemma decode_send_wire bl byte mode :
  bl = BACKLIGHT_OFF ∨ bl = BACKLIGHT_ON → mode = COMMAND ∨ mode = DATA →
  0 ≤ byte ≤ 255 →
  decode (Z.lor (Z.lor (Z.land byte 240) mode) bl)
         (Z.lor (Z.lor (Z.land (Z.shiftl byte 4) 240) mode) bl) = (byte, mode).
Proof.
  intros Hbl Hmode Hbyte.
  destruct Hbl as [-> | ->], Hmode as [-> | ->];
    match goal with
    | |- decode (Z.lor (Z.lor _ ?m) ?b) _ = _ =>
        assert (forallb
                  (λ x, bool_decide
                          (decode (Z.lor (Z.lor (Z.land x 240) m) b)
                             (Z.lor (Z.lor (Z.land (Z.shiftl x 4) 240) m) b) =
                           (x, m)))
                  (py_range 0 256) = true) as Hall by (vm_compute; reflexivity);
        pose proof (byte_cases _ Hall byte ltac:(lia)) as Hone;
        apply bool_decide_eq_true_1 in Hone; exact Hone
    end.
Qed.

(** C7. For a byte of 0..255 and a mode of command (0) or data (1),
    [send] makes exactly six bus writes: setup, enable high, enable low
    for the high nibble, then the same three for the low nibble, each
    OR'd with the backlight bit of the object; the two setup writes
    decode to the byte and the mode, so no other byte and mode give the
    same two writes. *)
Theorem send_round_trip o e byte mode :
  0 ≤ byte ≤ 255 →
  mode = COMMAND ∨ mode = DATA →
  backlight o = BACKLIGHT_OFF ∨ backlight o = BACKLIGHT_ON →
  quiet e 6 →
  let bl := backlight o in
  let high := Z.lor (Z.land byte 240) mode in
  let low := Z.lor (Z.land (Z.shiftl byte 4) 240) mode in
  send byte mode (mkState o e) =
    (Ok tt,
     mkState o
       (mkEnv (trace e ++
                 [Writeto (addr o) [Z.lor high bl];
                  Writeto (addr o) [Z.lor (Z.lor high ENABLE) bl];
                  Writeto (addr o) [Z.lor (Z.land high (Z.lnot ENABLE)) bl];
                  Writeto (addr o) [Z.lor low bl];
                  Writeto (addr o) [Z.lor (Z.lor low ENABLE) bl];
                  Writeto (addr o) [Z.lor (Z.land low (Z.lnot ENABLE)) bl]])
          (attempts e + 6) (nack e))) ∧
  decode (Z.lor high bl) (Z.lor low bl) = (byte, mode) ∧
  ∀ byte' mode',
    0 ≤ byte' ≤ 255 → mode' = COMMAND ∨ mode' = DATA →
    Z.lor (Z.lor (Z.land byte' 240) mode') bl = Z.lor high bl →
    Z.lor (Z.lor (Z.land (Z.shiftl byte' 4) 240) mode') bl = Z.lor low bl →
    byte' = byte ∧ mode' = mode.
Proof.
  intros Hbyte Hmode Hbl Hq. cbv zeta. split; [|split].
  - rewrite send_on_bus by done. by rewrite on_bus_quiet.
  - by apply decode_send_wire.
  - intros byte' mode' Hbyte' Hmode' Hhigh Hlow.
    pose proof (decode_send_wire _ byte mode Hbl Hmode Hbyte) as H.
    pose proof (decode_send_wire _ byte' mode' Hbl Hmode' Hbyte') as H'.
    rewrite Hhigh, Hlow, H in H'. by inversion H'.
Qed.

Lemma send_round_trip_witness :
  send 65 DATA fresh =
    (Ok tt,
     mkState (self fresh)
       (mkEnv (trace (env fresh) ++
                 [Writeto 39 [73]; Writeto 39 [77]; Writeto 39 [73];
                  Writeto 39 [25]; Writeto 39 [29]; Writeto 39 [25]])
          24 (nack (env fresh)))) ∧
  decode 73 25 = (65, 1).
Proof.
  destruct (send_round_trip (self fresh) (env fresh) 65 DATA) as (H1 & H2 & _).
  - lia.
  - right; reflexivity.
  - right; reflexivity.
  - intros k Hk; reflexivity.
  - split; [exact H1 | exact H2].
Defined.

(** ** The address map *)

Lemma set_ddram_bit a : 128 ≤ a ≤ 255 → Z.lor SET_DDRAM a = a.
Proof.
  intros Ha.
  assert (forallb (λ x, (x <? 128) || (Z.lor SET_DDRAM x =? x))
            (py_range 0 256) = true) as Hall by (vm_compute; reflexivity).
  pose proof (byte_cases _ Hall a ltac:(lia)) as H.
  apply orb_true_iff in H as [H | H]; lia.
Qed.

(** C6. For every row [r] of 0..3 and column [i] of 0..19 the address
    that the driver keeps for the cell is the base of the row plus [i]:
    128..147 on row 0, 192..211 on row 1, 148..167 on row 2 and 212..231
    on row 3; the set-DDRAM-address command byte of that cell is the
    address itself. *)
Theorem address_mapping_exact s r i :
  reachable s → 0 ≤ r ≤ 3 → 0 ≤ i ≤ 19 →
  ∃ a,
    py_getitem2 (ddram_map (self s)) r i = Some a ∧
    a = row_base r + i ∧
    (r = 0 → a = 128 + i ∧ 128 ≤ a ≤ 147) ∧
    (r = 1 → a = 192 + i ∧ 192 ≤ a ≤ 211) ∧
    (r = 2 → a = 148 + i ∧ 148 ≤ a ≤ 167) ∧
    (r = 3 → a = 212 + i ∧ 212 ≤ a ≤ 231) ∧
    Z.lor SET_DDRAM a = a.
Proof.
  intros Hs Hr Hi. exists (row_base r + i).
  rewrite (wf_map _ (reachable_wf s Hs)), ddram_map_lookup by done.
  split; [done|]. split; [done|].
  refine (conj _ (conj _ (conj _ (conj _ _))));
    try (intros ->; cbn [row_base]; lia).
  apply set_ddram_bit.
  assert (r = 0 ∨ r = 1 ∨ r = 2 ∨ r = 3) as [-> | [-> | [-> | ->]]] by lia;
    cbn [row_base]; lia.
Qed.

Lemma reachable_fresh : reachable fresh.
Proof.
  exists good_bus, 39, fresh, []. split; [|split].
  - vm_compute. reflexivity.
  - apply Forall_nil_2.
  - unfold run. cbn [foldl]. reflexivity.
Qed.

Lemma address_mapping_exact_witness :
  py_getitem2 (ddram_map (self fresh)) 2 5 = Some 153.
Proof.
  destruct (address_mapping_exact fresh 2 5 reachable_fresh) as (a & H & -> & _).
  - lia.
  - lia.
  - exact H.
Defined.

(** ** [clear_display] *)

(** C5. Whatever the state, a [clear_display] that returns leaves the
    cursor on (0, 0) and the dirty list empty; the grid of stored values
    is as it was, whether the call returned or raised; and the call does
    return when the bus accepts its six writes. *)
Theorem clear_display_post s :
  (∀ s', clear_display s = (Ok tt, s') →
         cursor_loc (self s') = (0, 0) ∧
         refresh_loc (self s') = [] ∧
         ddram_value (self s') = ddram_value (self s)) ∧
  ddram_value (self (clear_display s).2) = ddram_value (self s) ∧
  (backlight (self s) = BACKLIGHT_OFF ∨ backlight (self s) = BACKLIGHT_ON →
   quiet (env s) 6 →
   ∃ s', clear_display s = (Ok tt, s')).
Proof.
  split; [|split].
  - intros s'. unfold clear_display, mbind, M_bind.
    pose proof (keeps_self_send CLEAR_DISPLAY COMMAND s) as Hk.
    destruct (send CLEAR_DISPLAY COMMAND s) as [[u|x] s1]; [|done].
    cbn in *. intros [= <-]. cbn. by rewrite Hk.
  - by apply (preserves_clear_display (λ o, ddram_value o = ddram_value (self s))).
  - intros Hbl Hq. destruct s as [o e]. cbn [self env] in *.
    unfold clear_display, mbind, M_bind.
    rewrite send_on_bus, on_bus_quiet by (done || by left). cbn. eauto.
Qed.

Lemma clear_display_post_witness :
  cursor_loc (self (clear_display pending).2) = (0, 0) ∧
  refresh_loc (self (clear_display pending).2) = [] ∧
  ddram_value (self (clear_display pending).2) = ddram_value (self pending).
Proof.
  destruct (clear_display_post pending) as (H & _ & _).
  apply H. vm_compute. reflexivity.
Defined.

(** ** Padding and truncation *)

(** C8. After [set_row(r, T)] with [r] of 0..3, the 20 values stored for
    row [r] are the codes of the first 20 characters of [T] padded on
    the right with spaces to length 20: 20 space codes for the empty
    text, the first 20 characters alone for a text of 20 characters or
    more. *)
Theorem set_row_pads_and_truncates o e row text wrap :
  wf o → 0 ≤ row ≤ 3 →
  let cs := list_ascii_of_string text in
  ∃ o',
    set_row row text wrap (mkState o e) = (Ok tt, mkState o' e) ∧
    ddram_value o' !! Z.to_nat row = Some (VInt <$> padded text) ∧
    (∀ c, 0 ≤ c ≤ 19 → cell o' row c = Some (VInt (code_at text c))) ∧
    length (padded text) = 20%nat ∧
    (text = "" → padded text = replicate 20 (ord " ")) ∧
    ((20 ≤ length cs)%nat → padded text = ord <$> take 20 cs) ∧
    ((length cs ≤ 20)%nat →
     padded text = (ord <$> cs) ++ replicate (20 - length cs) (ord " ")).
Proof.
  intros Hwf Hrow cs. exists (set_row_upto 20 row text o).
  split; [|split; [|split; [|split; [|split; [|split]]]]].
  - apply set_row_eq; [done | apply Hwf | apply Hwf].
  - rewrite set_row_upto_grid by (done || apply Hwf).
    apply list_lookup_insert_eq. rewrite (wf_rows o Hwf). lia.
  - intros c Hc. rewrite cell_set_row by (done || apply Hwf).
    by rewrite bool_decide_true.
  - apply padded_length.
  - by intros ->.
  - intros Hlen. unfold padded. fold cs. by rewrite take_app_le.
  - intros Hlen. unfold padded. fold cs.
    rewrite take_ge by (rewrite length_app, length_replicate; lia).
    by rewrite fmap_app, fmap_replicate.
Qed.

Lemma set_row_pads_and_truncates_witness :
  ddram_value
    (self (set_row 1 "this text is over twenty chars" false fresh).2) !! 1%nat =
  Some (VInt <$> [116; 104; 105; 115; 32; 116; 101; 120; 116; 32;
                  105; 115; 32; 111; 118; 101; 114; 32; 116; 119]).
Proof.
  destruct (set_row_pads_and_truncates (self fresh) (env fresh) 1
              "this text is over twenty chars" false (wf_new_lcd 39))
    as (o' & Hrun & Hrow & _).
  - lia.
  - change (mkState (self fresh) (env fresh)) with fresh in Hrun.
    rewrite Hrun. exact Hrow.
Defined.

(** ** Diff minimality *)

Lemma filter_ext_in {A} (P Q : A → Prop) `{∀ x, Decision (P x)}
    `{∀ x, Decision (Q x)} (l : list A) :
  (∀ x, x ∈ l → P x ↔ Q x) → filter P l = filter Q l.
Proof.
  induction l as [|x l IH]; intros HPQ; [done|].
  rewrite !filter_cons.
  rewrite IH by (intros y Hy; apply HPQ; by right).
  pose proof (HPQ x ltac:(by left)) as Hx.
  destruct (decide (P x)), (decide (Q x)); tauto.
Qed.

(** C1. After [set_row(r, T1)] and a [refresh()] that returned, the
    dirty list that [set_row(r, T2)] leaves holds the coordinates
    [(r, i)] of the columns [i] of 0..19 at which the padded forms of
    [T1] and [T2] differ, in ascending order, and nothing else; the
    [refresh()] does return when the bus accepts its writes. *)
Theorem set_row_diff_minimal o e row t1 t2 wrap1 wrap2 :
  wf o → 0 ≤ row ≤ 3 →
  ∃ o1,
    set_row row t1 wrap1 (mkState o e) = (Ok tt, mkState o1 e) ∧
    (quiet e (12 * length (refresh_loc o1)) →
     ∃ s2, refresh (mkState o1 e) = (Ok tt, s2)) ∧
    ∀ s2, refresh (mkState o1 e) = (Ok tt, s2) →
      ∃ s3,
        set_row row t2 wrap2 s2 = (Ok tt, s3) ∧
        refresh_loc (self s3) = (λ c, (row, c)) <$> diff_cols t1 t2.
Proof.
  intros Hwf Hrow. exists (set_row_upto 20 row t1 o).
  pose proof (wf_set_row o row t1 Hwf Hrow) as Hwf1.
  split; [|split].
  - apply set_row_eq; [done | apply Hwf | apply Hwf].
  - intros Hq. rewrite <- refresh_wire_length in Hq.
    rewrite refresh_quiet by done. eauto.
  - intros [o2 e2] Href. apply refresh_self in Href. cbn [self] in Href.
    subst o2. set (o2 := with_refresh_loc [] (set_row_upto 20 row t1 o)).
    assert (wf o2) as Hwf2 by (by apply stable_wf).
    exists (mkState (set_row_upto 20 row t2 o2) e2). split.
    + apply set_row_eq; [done | apply Hwf2 | apply Hwf2].
    + cbn [self set_row_upto refresh_loc with_refresh_loc o2]. rewrite app_nil_l.
      f_equal. unfold diff_cols. apply filter_ext_in. intros c Hc.
      apply elem_of_py_range in Hc. unfold differs.
      change (cell o2 row c) with (cell (set_row_upto 20 row t1 o) row c).
      rewrite cell_set_row by (done || lia || apply Hwf).
      rewrite bool_decide_true by done. cbn [py_int_ne].
      rewrite negb_true_iff, Z.eqb_neq. split; congruence.
Qed.

Lemma set_row_diff_minimal_witness :
  ∃ s1 s2 s3,
    set_row 0 "help" false fresh = (Ok tt, s1) ∧
    refresh s1 = (Ok tt, s2) ∧
    set_row 0 "hello" false s2 = (Ok tt, s3) ∧
    refresh_loc (self s3) = [(0, 3); (0, 4)].
Proof.
  destruct (set_row_diff_minimal (self fresh) (env fresh) 0 "help" "hello"
              false false (wf_new_lcd 39))
    as (o1 & Hset & Hret & Hdiff).
  - lia.
  - destruct Hret as [s2 Hs2]; [intros k _; reflexivity|].
    destruct (Hdiff s2 Hs2) as (s3 & Hs3 & Hloc).
    exists (mkState o1 (env fresh)), s2, s3.
    split; [exact Hset|]. split; [exact Hs2|]. split; [exact Hs3|].
    rewrite Hloc. vm_compute. reflexivity.
Defined.

(** ** The refresh contract *)

(** C2, as stated, fails: the data writes of a [refresh] are as many as
    the entries of the dirty list, not as the dirty cells, and they can
    be 80.  After [set_row(0, "A")] and [set_row(0, "B")] on a new
    driver the list has 21 entries for 20 cells, [(0, 0)] twice, and
    [refresh] makes 21 data writes (126 bus bytes in data mode); after a
    [set_row] of each of the four rows it makes 80 (480 bytes). *)
Lemma refresh_writes_entries_not_cells :
  length (refresh_loc (self set_twice)) = 21%nat ∧
  length (remove_dups (refresh_loc (self set_twice))) = 20%nat ∧
  refresh set_twice =
    (Ok tt,
     mkState (with_refresh_loc [] (self set_twice))
       (mkEnv (trace (env set_twice) ++ wrote 39 (refresh_wire (self set_twice)))
          (attempts (env set_twice) + 12 * 21) (nack (env set_twice)))) ∧
  count_rs true (refresh_wire (self set_twice)) = (6 * 21)%nat ∧
  count_rs true (refresh_wire (self set_twice)) ≠
    (6 * length (remove_dups (refresh_loc (self set_twice))))%nat ∧
  length (remove_dups (refresh_loc (self all_rows_set))) = 80%nat ∧
  refresh all_rows_set =
    (Ok tt,
     mkState (with_refresh_loc [] (self all_rows_set))
       (mkEnv (trace (env all_rows_set) ++
                 wrote 39 (refresh_wire (self all_rows_set)))
          (attempts (env all_rows_set) + 12 * 80) (nack (env all_rows_set)))) ∧
  count_rs true (refresh_wire (self all_rows_set)) = (6 * 80)%nat.
Proof.
  split; [vm_compute; reflexivity|]. split; [vm_compute; reflexivity|].
  split; [vm_compute; reflexivity|]. split; [vm_compute; reflexivity|].
  split; [vm_compute; discriminate|]. split; [vm_compute; reflexivity|].
  split; vm_compute; reflexivity.
Qed.

(** C2, amended. On a constructed driver, after any run of calls whose
    [set_row] rows are of 0..3, a [refresh()] on a bus that accepts its
    writes returns, having sent, for each entry of the dirty list in
    insertion order, one set-DDRAM-address command with the controller
    address of the cell and then one data write of the code stored in
    the cell, and nothing else: six bus bytes in data mode and six in
    command mode per entry, so that the data writes are as many as the
    entries of the list, a cell listed twice being written twice.  It
    leaves the dirty list empty, and every cell that was dirty holds
    the code that the last [set_row] on its row gave it. *)
Theorem refresh_contract e0 a calls :
  let s := run calls (__init__ e0 a).2 in
  let o := self s in
  Forall row_ok calls →
  quiet (env s) (12 * length (refresh_loc o)) →
  ∃ s',
    refresh s = (Ok tt, s') ∧
    trace (env s') =
      trace (env s) ++
      wrote (addr o)
        (concat
           ((λ loc,
               send_wire (backlight o) (Z.lor SET_DDRAM (ddram_addr loc)) COMMAND ++
               send_wire (backlight o) (stored o loc) DATA) <$> refresh_loc o)) ∧
    count_rs true (refresh_wire o) = (6 * length (refresh_loc o))%nat ∧
    count_rs false (refresh_wire o) = (6 * length (refresh_loc o))%nat ∧
    length (refresh_wire o) = (12 * length (refresh_loc o))%nat ∧
    refresh_loc (self s') = [] ∧
    ∀ r c, (r, c) ∈ refresh_loc o →
      ∃ text,
        last_text calls r = Some text ∧
        py_getitem2 (ddram_map o) r c = Some (ddram_addr (r, c)) ∧
        stored o (r, c) = code_at text c ∧
        cell (self s') r c = Some (VInt (code_at text c)).
Proof.
  intros s o Hcalls Hq.
  assert (wf o) as Hwf.
  { apply run_wf; [|done]. rewrite init_self. apply wf_new_lcd. }
  rewrite <- refresh_wire_length in Hq.
  destruct s as [o' e] eqn:Es. cbn [self env] in *. subst o.
  eexists. split; [by apply refresh_quiet|]. cbn [self env trace].
  split; [done|]. split; [by apply count_rs_refresh|].
  split; [by apply count_rs_refresh|]. split; [apply refresh_wire_length|].
  split; [done|]. intros r c Hin.
  pose proof (proj1 (Forall_forall _ _) (wf_dirty o' Hwf) _ Hin)
    as [[Hr Hc] [v Hv]]. cbn [fst snd] in *.
  pose proof (run_cells e0 a calls r c Hcalls Hr Hc) as Hcell.
  fold s in Hcell. rewrite Es in Hcell. cbn [self] in Hcell.
  rewrite Hv in Hcell. injection Hcell as Hcell.
  destruct (last_text calls r) as [text|]; [|discriminate Hcell].
  injection Hcell as ->. exists text. split; [done|]. split; [|split].
  - by rewrite (wf_map o' Hwf), ddram_map_lookup.
  - unfold stored. cbn [fst snd]. by rewrite Hv.
  - exact Hv.
Qed.

Lemma refresh_contract_witness :
  ∃ s',
    refresh (run [CallSetRow 0 "Hi" false] (__init__ good_bus 39).2) = (Ok tt, s') ∧
    refresh_loc (self s') = [] ∧
    cell (self s') 0 1 = Some (VInt 105).
Proof.
  destruct (refresh_contract good_bus 39 [CallSetRow 0 "Hi" false])
    as (s' & Hrun & _ & _ & _ & _ & Hloc & Hcells).
  - apply Forall_singleton. unfold row_ok. lia.
  - intros k _. vm_compute. reflexivity.
  - exists s'. split; [exact Hrun|]. split; [exact Hloc|].
    destruct (Hcells 0 1) as (text & Htext & _ & _ & Hcell).
    + vm_compute. do 1 right. left.
    + vm_compute in Htext. injection Htext as <-. exact Hcell.
Defined.

(** ** The validity of the dirty list *)

Lemma stable_dirty_shrinks l :
  stable (λ o, refresh_loc o = [] ∨ refresh_loc o = l).
Proof. split; intros; cbn; auto. Qed.

(** C9. In every state that a constructed driver reaches by calls whose
    [set_row] rows are of 0..3, every entry [(r, c)] of the dirty list
    has [0 ≤ r ≤ 3] and [0 ≤ c ≤ 19], and so it is after one more such
    call: [set_row] appends entries of its row with columns of 0..19,
    [refresh] and [clear_display] leave the list as it was or empty. *)
Theorem dirty_set_valid s :
  reachable s →
  Forall loc_ok (refresh_loc (self s)) ∧
  (∀ c, row_ok c → Forall loc_ok (refresh_loc (self (step s c)))) ∧
  (∀ row text wrap, 0 ≤ row ≤ 3 →
     ∃ new,
       refresh_loc (self (step s (CallSetRow row text wrap))) =
       refresh_loc (self s) ++ new ∧
       Forall (λ loc, loc.1 = row ∧ 0 ≤ loc.2 ≤ 19) new) ∧
  (∀ c, c = CallRefresh ∨ c = CallClearDisplay →
     refresh_loc (self (step s c)) = [] ∨
     refresh_loc (self (step s c)) = refresh_loc (self s)).
Proof.
  intros Hs. pose proof (reachable_wf s Hs) as Hwf.
  assert (∀ o, wf o → Forall loc_ok (refresh_loc o)) as Hvalid.
  { intros o Ho. eapply Forall_impl; [apply (wf_dirty o Ho)|].
    by intros loc [H _]. }
  split; [by apply Hvalid|]. split; [|split].
  - intros c Hc. by apply Hvalid, step_wf.
  - intros row text wrap Hrow. destruct s as [o e]. cbn [self] in *.
    rewrite step_set_row by done. cbn [self set_row_upto refresh_loc with_refresh_loc].
    eexists. split; [done|].
    apply Forall_fmap, Forall_forall. intros c Hc.
    apply list_elem_of_filter in Hc as [_ Hc]. apply elem_of_py_range in Hc.
    cbn. lia.
  - intros c Hc.
    apply (preserves_perform _ c (stable_dirty_shrinks (refresh_loc (self s)))).
    + by destruct Hc as [-> | ->].
    + by right.
Qed.

Lemma dirty_set_valid_witness :
  Forall loc_ok (refresh_loc (self (step fresh (CallSetRow 2 "abc" false)))).
Proof.
  destruct (dirty_set_valid fresh reachable_fresh) as (_ & H & _).
  apply H. unfold row_ok. lia.
Defined.

(** ** Failure of the transport during [refresh] *)

(** C10. A [refresh()] that raises, whatever the exception, leaves the
    object as it was, so the dirty list keeps all its entries.  When the
    bus refuses one of the writes of a [refresh()], the call raises
    [TransportError], and a later [refresh()] on a bus that accepts its
    writes sends every pending cell and empties the list. *)
Theorem refresh_failure_keeps_dirty s :
  (∀ x s', refresh s = (Raise x, s') → self s' = self s) ∧
  (wf (self s) →
   (∃ k, (k < 12 * length (refresh_loc (self s)))%nat ∧
         nack (env s) (attempts (env s) + k) = true) →
   ∃ s',
     refresh s = (Raise TransportError, s') ∧
     refresh_loc (self s') = refresh_loc (self s) ∧
     (quiet (env s') (12 * length (refresh_loc (self s))) →
      ∃ s'',
        refresh s' = (Ok tt, s'') ∧
        trace (env s'') =
          trace (env s') ++ wrote (addr (self s)) (refresh_wire (self s)) ∧
        refresh_loc (self s'') = [])).
Proof.
  split.
  - intros x s' H. by apply refresh_self in H.
  - intros Hwf Hn. destruct s as [o e]. cbn [self env] in *.
    rewrite <- refresh_wire_length in Hn.
    destruct (refresh_nack o e Hwf Hn) as [e' He'].
    exists (mkState o e'). split; [done|]. split; [done|].
    cbn [self env]. intros Hq. rewrite <- refresh_wire_length in Hq.
    eexists. split; [by apply refresh_quiet|]. by cbn.
Qed.

Lemma wf_pending : wf (self pending).
Proof.
  split.
  - by right.
  - reflexivity.
  - reflexivity.
  - repeat constructor.
  - apply Forall_forall. intros [r c] Hin.
    assert (r = 0 ∧ 0 ≤ c ≤ 19) as [-> Hc].
    { vm_compute in Hin. repeat (apply elem_of_cons in Hin as [[= -> ->] | Hin]; [lia|]).
      by apply elem_of_nil in Hin. }
    split; [split; cbn; lia|]. unfold holds_int. cbn [fst snd].
    assert (c = 0 ∨ c = 1 ∨ c = 2 ∨ c = 3 ∨ c = 4 ∨ c = 5 ∨ c = 6 ∨ c = 7 ∨
            c = 8 ∨ c = 9 ∨ c = 10 ∨ c = 11 ∨ c = 12 ∨ c = 13 ∨ c = 14 ∨
            c = 15 ∨ c = 16 ∨ c = 17 ∨ c = 18 ∨ c = 19) as Hcases by lia.
    repeat (destruct Hcases as [-> | Hcases]; [eexists; vm_compute; reflexivity|]).
    subst c. eexists. vm_compute. reflexivity.
Qed.

Lemma refresh_failure_keeps_dirty_witness :
  ∃ s',
    refresh pending = (Raise TransportError, s') ∧
    refresh_loc (self s') = refresh_loc (self pending).
Proof.
  destruct (refresh_failure_keeps_dirty pending) as [_ H].
  destruct (H wf_pending) as (s' & Hraise & Hloc & _).
  - exists 22%nat. split; [vm_compute; lia | vm_compute; reflexivity].
  - exists s'. split; [exact Hraise | exact Hloc].
Defined.

(** ** What mutates the grid *)

(** C3, as stated, fails: on a driver just constructed, [set_row(0, "A")]
    changes the grid of stored values. *)
Lemma set_row_mutates_grid :
  ddram_value (self (step fresh (CallSetRow 0 "A" false))) ≠
  ddram_value (self fresh).
Proof. vm_compute. discriminate. Qed.

(** C3, amended. The grid [ddram_value], the only grid that the driver
    keeps, is changed by [set_row] alone: every other method, [refresh]
    included, leaves it as it was, whether it returns or raises; and
    [set_row(r, T)] with [r] of 0..3 leaves every row but [r] as it
    was. *)
Theorem grid_changed_only_by_set_row s c :
  (is_set_row c = false →
   ddram_value (self (step s c)) = ddram_value (self s)) ∧
  (∀ row text wrap (r : nat),
     c = CallSetRow row text wrap → wf (self s) → 0 ≤ row ≤ 3 →
     r ≠ Z.to_nat row →
     ddram_value (self (step s c)) !! r = ddram_value (self s) !! r).
Proof.
  split; [apply step_grid|].
  intros row text wrap r -> Hwf Hrow Hr. destruct s as [o e]. cbn [self] in *.
  rewrite step_set_row by done. cbn [self].
  rewrite set_row_upto_grid by (done || apply Hwf).
  by rewrite list_lookup_insert_ne.
Qed.

Lemma grid_changed_only_by_set_row_witness :
  ddram_value (self (step pending CallRefresh)) = ddram_value (self pending) ∧
  ddram_value (self (step fresh (CallSetRow 0 "A" false))) !! 1%nat =
  ddram_value (self fresh) !! 1%nat.
Proof.
  split.
  - destruct (grid_changed_only_by_set_row pending CallRefresh) as [H _].
    apply H. reflexivity.
  - destruct (grid_changed_only_by_set_row fresh (CallSetRow 0 "A" false))
      as [_ H].
    apply (H 0 "A" false 1%nat); [reflexivity | apply (wf_new_lcd 39) | lia | lia].
Defined.

(** ** The first write of a row *)

(** C4 does not hold of the code: the constructor fills the grid with
    the string [" "], [set_row] compares the integer [ord(...)] with it,
    and an integer never equals a string; on a driver just constructed
    [set_row(0, "")] returns with all 20 coordinates of row 0 appended
    to the dirty list. *)
Theorem fresh_blank_row_all_dirty :
  __init__ good_bus 39 = (Ok tt, fresh) ∧
  ddram_value (self fresh) = replicate 4 (replicate 20 (VStr " ")) ∧
  refresh_loc (self fresh) = [] ∧
  padded "" = replicate 20 32 ∧
  (set_row 0 "" false fresh).1 = Ok tt ∧
  refresh_loc (self (set_row 0 "" false fresh).2) =
    (λ c, (0, c)) <$> py_range 0 20.
Proof. repeat split; vm_compute; reflexivity. Qed.

(** * Further properties of the driver *)

(** ** The bus, write by write *)

Lemma quiet_dec e n :
  quiet e n ∨ ∃ k, (k < n)%nat ∧ nack e (attempts e + k) = true.
Proof.
  induction n as [|n [IH | (k & Hk & Hn)]].
  - left. intros k Hk. lia.
  - destruct (nack e (attempts e + n)) eqn:E.
    + right. exists n. split; [lia | done].
    + left. intros k Hk. destruct (decide (k = n)) as [-> | Hne]; [done|].
      apply IH. lia.
  - right. exists k. split; [lia | done].
Qed.

(** The bus stops at the first refused write: the bytes before it are
    on the wire, the others are not. *)
Lemma bus_run_first_nack a bs e k :
  (k < length bs)%nat → quiet e k → nack e (attempts e + k) = true →
  bus_run a bs e =
  (Raise TransportError,
   mkEnv (trace e ++ wrote a (take k bs)) (S (attempts e + k)) (nack e)).
Proof.
  revert e k. induction bs as [|b bs IH]; intros e k Hk Hq Hn; cbn in Hk; [lia|].
  destruct k as [|k].
  - cbn. rewrite Nat.add_0_r in Hn. rewrite Hn, app_nil_r, Nat.add_0_r. done.
  - cbn [bus_run].
    pose proof (Hq 0%nat ltac:(lia)) as H0. rewrite Nat.add_0_r in H0.
    rewrite H0. rewrite (IH _ k); cbn [trace attempts nack].
    + rewrite <- app_assoc. cbn. do 3 f_equal. lia.
    + lia.
    + intros j Hj. cbn. specialize (Hq (S j) ltac:(lia)).
      rewrite <- Hq. f_equal. lia.
    + rewrite <- Hn. f_equal. lia.
Qed.

Lemma send_quiet o e data mode :
  backlight o = BACKLIGHT_OFF ∨ backlight o = BACKLIGHT_ON →
  mode = COMMAND ∨ mode = DATA →
  quiet e 6 →
  send data mode (mkState o e) =
  (Ok tt,
   mkState o (mkEnv (trace e ++ wrote (addr o) (send_wire (backlight o) data mode))
                (attempts e + 6) (nack e))).
Proof.
  intros Hbl Hmode Hq. rewrite send_on_bus by done. by rewrite on_bus_quiet.
Qed.

Lemma bus_run_only_transport a bs e x e' :
  bus_run a bs e = (Raise x, e') → x = TransportError.
Proof.
  revert e. induction bs as [|b bs IH]; intros e; cbn; [congruence|].
  destruct (nack e (attempts e)); [congruence | apply IH].
Qed.

(** ** [send] on any integer *)

Lemma send_wire_arith bl data mode :
  bl = BACKLIGHT_OFF ∨ bl = BACKLIGHT_ON → mode = COMMAND ∨ mode = DATA →
  send_wire bl data mode =
  [16 * (data mod 256 / 16) + bl + mode;
   16 * (data mod 256 / 16) + bl + mode + 4;
   16 * (data mod 256 / 16) + bl + mode;
   16 * (data mod 256 mod 16) + bl + mode;
   16 * (data mod 256 mod 16) + bl + mode + 4;
   16 * (data mod 256 mod 16) + bl + mode].
Proof.
  intros Hbl Hmode. rewrite send_wire_mod.
  assert (0 ≤ data mod 256 < 256) as Hd by (apply Z.mod_pos_bound; lia).
  revert Hd. generalize (data mod 256). intros d Hd.
  destruct Hbl as [-> | ->], Hmode as [-> | ->];
    match goal with
    | |- send_wire ?b d ?m = _ =>
        assert (forallb
                  (λ x, bool_decide
                          (send_wire b x m =
                           [16 * (x / 16) + b + m; 16 * (x / 16) + b + m + 4;
                            16 * (x / 16) + b + m; 16 * (x mod 16) + b + m;
                            16 * (x mod 16) + b + m + 4; 16 * (x mod 16) + b + m]))
                  (py_range 0 256) = true) as Hall by (vm_compute; reflexivity);
        pose proof (byte_cases _ Hall d Hd) as Hone;
        apply bool_decide_eq_true_1 in Hone; exact Hone
    end.
Qed.

(** X1. [send] takes any integer, also a negative one or one of more
    than a byte: on a bus that accepts six writes it returns, and the
    six bytes are those of the low byte [b = data mod 256]: the high
    nibble [b / 16] and then the low nibble [b mod 16], each in the top
    four bits with the backlight bit and the mode bit added, and with
    the enable bit (4) set on the second write of each nibble only. *)
Theorem send_any_int o e data mode :
  backlight o = BACKLIGHT_OFF ∨ backlight o = BACKLIGHT_ON →
  mode = COMMAND ∨ mode = DATA →
  quiet e 6 →
  let b := data mod 256 in
  let high := 16 * (b / 16) + backlight o + mode in
  let low := 16 * (b mod 16) + backlight o + mode in
  send data mode (mkState o e) =
  (Ok tt,
   mkState o
     (mkEnv (trace e ++ wrote (addr o) [high; high + 4; high; low; low + 4; low])
        (attempts e + 6) (nack e))).
Proof.
  intros Hbl Hmode Hq. cbv zeta.
  rewrite send_quiet by done. by rewrite send_wire_arith.
Qed.

Lemma send_any_int_witness :
  send (-191) DATA fresh =
  (Ok tt,
   mkState (self fresh)
     (mkEnv (trace (env fresh) ++ wrote 39 [73; 77; 73; 25; 29; 25])
        24 (nack (env fresh)))).
Proof.
  apply (send_any_int (self fresh) (env fresh) (-191) DATA).
  - right; reflexivity.
  - right; reflexivity.
  - intros k Hk; reflexivity.
Defined.

(** X2. When the bus refuses the write number [k] (of 0..5) of a [send]
    and accepted the ones before, [send] raises [TransportError] with
    exactly the first [k] of its six bytes on the wire: nothing is
    retried or undone, and the object is as it was. *)
Theorem send_refused o e data mode k :
  backlight o = BACKLIGHT_OFF ∨ backlight o = BACKLIGHT_ON →
  mode = COMMAND ∨ mode = DATA →
  (k < 6)%nat → quiet e k → nack e (attempts e + k) = true →
  send data mode (mkState o e) =
  (Raise TransportError,
   mkState o
     (mkEnv (trace e ++ wrote (addr o) (take k (send_wire (backlight o) data mode)))
        (S (attempts e + k)) (nack e))).
Proof.
  intros Hbl Hmode Hk Hq Hn. rewrite send_on_bus by done.
  unfold on_bus. cbn [env self]. by rewrite (bus_run_first_nack _ _ e k).
Qed.

Lemma send_refused_witness :
  send 65 DATA (mkState (self pending) (mkEnv [] 36 (nack (env pending)))) =
  (Raise TransportError,
   mkState (self pending)
     (mkEnv (wrote 39 [73; 77; 73; 25]) 41 (nack (env pending)))).
Proof.
  apply (send_refused (self pending) (mkEnv [] 36 (nack (env pending))) 65 DATA 4).
  - right; reflexivity.
  - right; reflexivity.
  - lia.
  - intros j Hj. cbn.
    do 4 (destruct j as [|j]; [reflexivity|]). lia.
  - reflexivity.
Defined.

(** ** More on [refresh] *)

(** X3. When the bus refuses the write number [k] of a [refresh] on a
    well-formed object and accepted the ones before, [refresh] raises
    [TransportError] with exactly the first [k] bytes of its sequence on
    the wire (12 bytes per dirty cell) and the object as it was: the
    cells already sent stay in the dirty list with the others. *)
Theorem refresh_refused o e k :
  wf o →
  (k < 12 * length (refresh_loc o))%nat →
  quiet e k → nack e (attempts e + k) = true →
  refresh (mkState o e) =
  (Raise TransportError,
   mkState o
     (mkEnv (trace e ++ wrote (addr o) (take k (refresh_wire o)))
        (S (attempts e + k)) (nack e))).
Proof.
  intros Hwf Hk Hq Hn. rewrite refresh_eq by done.
  rewrite <- refresh_wire_length in Hk.
  unfold mbind, M_bind, on_bus. cbn [env self].
  by rewrite (bus_run_first_nack _ _ e k).
Qed.

Lemma refresh_refused_witness :
  ∃ e',
    refresh pending = (Raise TransportError, mkState (self pending) e') ∧
    length (trace e') = (length (trace (env pending)) + 22)%nat.
Proof.
  eexists. split.
  - apply (refresh_refused (self pending) (env pending) 22 wf_pending).
    + vm_compute. lia.
    + intros j Hj. cbn.
      do 22 (destruct j as [|j]; [reflexivity|]). lia.
    + reflexivity.
  - vm_compute. reflexivity.
Defined.

(** X4. Whatever the state, a [refresh] with an empty dirty list returns
    without a bus write and changes nothing, even on a bus that refuses
    every write; so a [refresh] that follows a [refresh] that returned
    is a no-op. *)
Theorem refresh_nothing_pending s :
  (refresh_loc (self s) = [] → refresh s = (Ok tt, s)) ∧
  (∀ s', refresh s = (Ok tt, s') → refresh s' = (Ok tt, s')).
Proof.
  assert (∀ t, refresh_loc (self t) = [] → refresh t = (Ok tt, t)) as H.
  { intros [o e] Ht. cbn [self] in Ht. unfold refresh. rewrite bind_get.
    cbn [self]. rewrite Ht. destruct o; cbn in *. by subst. }
  split; [apply H|]. intros s' Hs'. apply H.
  apply refresh_self in Hs'. by rewrite Hs'.
Qed.

Lemma refresh_nothing_pending_witness :
  refresh (mkState (self fresh) dead_bus) = (Ok tt, mkState (self fresh) dead_bus).
Proof.
  destruct (refresh_nothing_pending (mkState (self fresh) dead_bus)) as [H _].
  apply H. reflexivity.
Defined.

(** X5. On a well-formed object [refresh] raises nothing but
    [TransportError]: no index is out of range and no stored value is
    of the wrong type or out of the byte range. *)
Theorem refresh_raises_only_transport o e x s' :
  wf o → refresh (mkState o e) = (Raise x, s') → x = TransportError.
Proof.
  intros Hwf. rewrite refresh_eq by done.
  unfold mbind, M_bind, on_bus. cbn [env self].
  destruct (bus_run (addr o) (refresh_wire o) e) as [[u|y] e1] eqn:E.
  - discriminate.
  - intros [= -> _]. by apply bus_run_only_transport in E.
Qed.

Lemma refresh_raises_only_transport_witness :
  (refresh pending).1 = Raise TransportError.
Proof.
  destruct (refresh pending) as [[u|x] s'] eqn:E.
  - vm_compute in E. discriminate E.
  - cbn. f_equal.
    apply (refresh_raises_only_transport (self pending) (env pending) x s' wf_pending).
    exact E.
Defined.

(** ** More on [set_row] *)

Lemma filter_none {A} (P : A → Prop) `{∀ x, Decision (P x)} (l : list A) :
  (∀ x, x ∈ l → ¬ P x) → filter P l = [].
Proof.
  induction l as [|x l IH]; intros HP; [done|].
  rewrite filter_cons, decide_False by (apply HP; by left).
  apply IH. intros y Hy. apply HP. by right.
Qed.

Lemma with_same o :
  with_refresh_loc (refresh_loc o) (with_ddram_value (ddram_value o) o) = o.
Proof. by destruct o. Qed.

Lemma differs_after o row t1 t2 c :
  wf o → 0 ≤ row ≤ 3 → 0 ≤ c ≤ 19 →
  differs (set_row_upto 20 row t1 o) row t2 c =
  negb (code_at t2 c =? code_at t1 c).
Proof.
  intros Hwf Hrow Hc. unfold differs.
  rewrite cell_set_row by (done || apply Hwf).
  by rewrite bool_decide_true.
Qed.

Lemma code_at_padded t1 t2 c : padded t1 = padded t2 → code_at t1 c = code_at t2 c.
Proof. intros H. unfold code_at. by rewrite H. Qed.

Lemma set_row_upto_padded o row t1 t2 :
  padded t1 = padded t2 → set_row_upto 20 row t1 o = set_row_upto 20 row t2 o.
Proof.
  intros H. unfold set_row_upto. rewrite H. do 3 f_equal.
  apply filter_ext_in. intros c _. unfold differs.
  by rewrite (code_at_padded t1 t2 c H).
Qed.

Lemma set_row_upto_again o row t1 t2 :
  wf o → 0 ≤ row ≤ 3 → padded t2 = padded t1 →
  set_row_upto 20 row t2 (set_row_upto 20 row t1 o) = set_row_upto 20 row t1 o.
Proof.
  intros Hwf Hrow Hpad.
  pose proof (wf_set_row o row t1 Hwf Hrow) as Hwf1.
  set (o1 := set_row_upto 20 row t1 o) in *.
  rewrite <- (with_same o1) at 2. unfold set_row_upto at 1. f_equal.
  - rewrite filter_none; [by rewrite app_nil_r|].
    intros c Hc. apply elem_of_py_range in Hc. unfold o1.
    rewrite differs_after by (done || lia).
    rewrite (code_at_padded t2 t1 c Hpad), Z.eqb_refl. done.
  - f_equal. rewrite drop_ge, app_nil_r.
    + rewrite take_ge by (rewrite padded_length; lia). rewrite Hpad.
      unfold o1. rewrite set_row_upto_grid by (done || apply Hwf).
      by rewrite list_insert_insert_eq.
    + destruct (lookup_lt_is_Some_2 (ddram_value o1) (Z.to_nat row)) as [x Hx];
        [rewrite (wf_rows o1 Hwf1); lia|].
      rewrite Hx. cbn.
      rewrite (Forall_lookup_1 _ _ _ _ (wf_cols o1 Hwf1) Hx). lia.
Qed.

(** X6. [set_row] is idempotent: on a well-formed object and a row of
    0..3, a second [set_row] of the same row with the same text (or with
    any text that has the same padded form, whatever the [wrap]
    arguments) returns and changes nothing: no cell is stored and no
    coordinate is appended. *)
Theorem set_row_idempotent o e row t1 t2 wrap1 wrap2 :
  wf o → 0 ≤ row ≤ 3 → padded t2 = padded t1 →
  ∃ o1,
    set_row row t1 wrap1 (mkState o e) = (Ok tt, mkState o1 e) ∧
    set_row row t2 wrap2 (mkState o1 e) = (Ok tt, mkState o1 e).
Proof.
  intros Hwf Hrow Hpad. exists (set_row_upto 20 row t1 o).
  pose proof (wf_set_row o row t1 Hwf Hrow) as Hwf1.
  split.
  - apply set_row_eq; [done | apply Hwf | apply Hwf].
  - rewrite set_row_eq by (done || apply Hwf1).
    by rewrite set_row_upto_again.
Qed.

Lemma set_row_idempotent_witness :
  ∃ o1,
    set_row 2 "menu" false fresh = (Ok tt, mkState o1 (env fresh)) ∧
    set_row 2 "menu  " true (mkState o1 (env fresh)) =
      (Ok tt, mkState o1 (env fresh)).
Proof.
  apply (set_row_idempotent (self fresh) (env fresh) 2 "menu" "menu  " false true
           (wf_new_lcd 39)).
  - lia.
  - vm_compute. reflexivity.
Defined.

(** X7. Only the padded form of the text counts: on a well-formed
    object and a row of 0..3, two texts with the same first 20
    characters after padding (one with trailing spaces, or with
    characters beyond the twentieth) give the same result, whatever the
    [wrap] arguments. *)
Theorem set_row_padded_only o e row t1 t2 wrap1 wrap2 :
  wf o → 0 ≤ row ≤ 3 → padded t1 = padded t2 →
  set_row row t1 wrap1 (mkState o e) = set_row row t2 wrap2 (mkState o e).
Proof.
  intros Hwf Hrow Hpad.
  rewrite !set_row_eq by (done || apply Hwf).
  by rewrite (set_row_upto_padded o row t1 t2 Hpad).
Qed.

Lemma set_row_padded_only_witness :
  set_row 1 "this text is over twenty chars" false fresh =
  set_row 1 "this text is over tw" true fresh.
Proof.
  apply (set_row_padded_only (self fresh) (env fresh) 1
           "this text is over twenty chars" "this text is over tw" false true
           (wf_new_lcd 39)).
  - lia.
  - vm_compute. reflexivity.
Defined.

(** X8. The dirty list is not a set: two [set_row] of the same row with
    no [refresh] between them append first the columns at which the
    grid differed from the first text, then the columns at which the two
    texts differ, so a column in both is listed twice; every cell of the
    row holds the code of the second text, which is what a [refresh]
    sends for each of its entries. *)
Theorem set_row_twice o e row t1 t2 wrap1 wrap2 :
  wf o → 0 ≤ row ≤ 3 →
  ∃ o2,
    (set_row row t1 wrap1 ;; set_row row t2 wrap2) (mkState o e) =
      (Ok tt, mkState o2 e) ∧
    refresh_loc o2 =
      refresh_loc o ++
      ((λ c, (row, c)) <$>
         filter (λ c, differs o row t1 c = true) (py_range 0 20)) ++
      ((λ c, (row, c)) <$> diff_cols t1 t2) ∧
    (∀ c, 0 ≤ c ≤ 19 → stored o2 (row, c) = code_at t2 c) ∧
    (∀ c, 0 ≤ c ≤ 19 → differs o row t1 c = true →
          code_at t1 c ≠ code_at t2 c →
          ∃ l1 l2 l3,
            refresh_loc o2 = l1 ++ [(row, c)] ++ l2 ++ [(row, c)] ++ l3).
Proof.
  intros Hwf Hrow.
  pose proof (wf_set_row o row t1 Hwf Hrow) as Hwf1.
  exists (set_row_upto 20 row t2 (set_row_upto 20 row t1 o)).
  assert (refresh_loc (set_row_upto 20 row t2 (set_row_upto 20 row t1 o)) =
          refresh_loc o ++
          ((λ c, (row, c)) <$>
             filter (λ c, differs o row t1 c = true) (py_range 0 20)) ++
          ((λ c, (row, c)) <$> diff_cols t1 t2)) as Hloc.
  { cbn [set_row_upto refresh_loc with_refresh_loc]. rewrite <- app_assoc.
    do 3 f_equal. unfold diff_cols. apply filter_ext_in. intros c Hc.
    apply elem_of_py_range in Hc.
    change (with_refresh_loc _ (with_ddram_value _ o))
      with (set_row_upto 20 row t1 o).
    rewrite differs_after by (done || lia).
    rewrite negb_true_iff, Z.eqb_neq. split; congruence. }
  split; [|split; [|split]].
  - unfold mbind, M_bind.
    rewrite set_row_eq by (done || apply Hwf).
    apply set_row_eq; [done | apply Hwf1 | apply Hwf1].
  - exact Hloc.
  - intros c Hc. unfold stored. cbn [fst snd].
    rewrite cell_set_row by (done || apply Hwf1).
    by rewrite bool_decide_true.
  - intros c Hc Hd Hne. rewrite Hloc.
    assert (c ∈ filter (λ c, differs o row t1 c = true) (py_range 0 20)) as H1.
    { apply list_elem_of_filter. split; [done|]. apply elem_of_py_range. lia. }
    assert (c ∈ diff_cols t1 t2) as H2.
    { apply list_elem_of_filter. split; [done|]. apply elem_of_py_range. lia. }
    apply list_elem_of_split in H1 as (a1 & a2 & ->).
    apply list_elem_of_split in H2 as (b1 & b2 & ->).
    exists (refresh_loc o ++ ((λ c, (row, c)) <$> a1)),
           (((λ c, (row, c)) <$> a2) ++ ((λ c, (row, c)) <$> b1)),
           ((λ c, (row, c)) <$> b2).
    rewrite !fmap_app. cbn. rewrite <- !app_assoc. cbn. done.
Qed.

Lemma set_row_twice_witness :
  ∃ o2,
    (set_row 0 "a" false ;; set_row 0 "b" false) fresh =
      (Ok tt, mkState o2 (env fresh)) ∧
    length (filter (λ loc, loc = (0, 0)) (refresh_loc o2)) = 2%nat.
Proof.
  destruct (set_row_twice (self fresh) (env fresh) 0 "a" "b" false false
              (wf_new_lcd 39)) as (o2 & Hrun & Hloc & _).
  - lia.
  - exists o2. split; [exact Hrun|]. rewrite Hloc. vm_compute. reflexivity.
Defined.

(** X9. A row outside -4..3 is an index error: on a grid of four rows
    [set_row] raises [IndexError] at its first column, before any cell
    is stored or any coordinate appended. *)
Theorem set_row_bad_row o e row text wrap :
  length (ddram_value o) = 4%nat → row < -4 ∨ 3 < row →
  set_row row text wrap (mkState o e) = (Raise IndexError, mkState o e).
Proof.
  intros Hlen Hrow. unfold set_row.
  change (py_range 0 20) with (0 :: py_range 1 20). cbn [for_each].
  unfold mbind at 1, M_bind.
  destruct (format20_getitem text 0 ltac:(lia)) as (ch & Hch & _).
  unfold set_row_body. rewrite Hch, bind_from_some, bind_get. cbn [self].
  unfold py_getitem2, py_getitem, py_index. rewrite Hlen.
  rewrite !bool_decide_false by lia. done.
Qed.

Lemma set_row_bad_row_witness :
  set_row 4 "oops" false fresh = (Raise IndexError, fresh).
Proof.
  apply (set_row_bad_row (self fresh) (env fresh) 4 "oops" false).
  - reflexivity.
  - right. lia.
Defined.

(** ** Negative rows *)

Lemma py_index_neg row : -4 ≤ row ≤ -1 → py_index 4 row = py_index 4 (row + 4).
Proof.
  intros H. unfold py_index.
  rewrite (bool_decide_false (0 ≤ row < _)) by lia.
  rewrite (bool_decide_true (- _ ≤ row < 0)) by lia.
  rewrite (bool_decide_true (0 ≤ row + 4 < _)) by lia.
  f_equal. lia.
Qed.

Lemma py_getitem_neg {A} (l : list A) row :
  length l = 4%nat → -4 ≤ row ≤ -1 → py_getitem l row = py_getitem l (row + 4).
Proof. intros Hl H. unfold py_getitem. by rewrite Hl, py_index_neg. Qed.

Lemma py_setitem_neg {A} (l : list A) row v :
  length l = 4%nat → -4 ≤ row ≤ -1 → py_setitem l row v = py_setitem l (row + 4) v.
Proof. intros Hl H. unfold py_setitem. by rewrite Hl, py_index_neg. Qed.

Lemma py_setitem_length {A} (l l' : list A) i v :
  py_setitem l i v = Some l' → length l' = length l.
Proof.
  unfold py_setitem. destruct (py_index (length l) i); [|done].
  cbn. intros [= <-]. apply length_insert.
Qed.

(** One column of [set_row] on a negative row does what it does on the
    row plus four, but for the row number that it appends. *)
Lemma set_row_body_neg o e row text col l cs :
  length (ddram_value o) = 4%nat → -4 ≤ row ≤ -1 →
  refresh_loc o = l ++ ((λ c, (row + 4, c)) <$> cs) →
  ∃ res o' cs',
    set_row_body (row + 4) text col (mkState o e) = (res, mkState o' e) ∧
    set_row_body row text col
      (mkState (with_refresh_loc (l ++ ((λ c, (row, c)) <$> cs)) o) e) =
      (res, mkState (with_refresh_loc (l ++ ((λ c, (row, c)) <$> cs')) o') e) ∧
    length (ddram_value o') = 4%nat ∧
    refresh_loc o' = l ++ ((λ c, (row + 4, c)) <$> cs').
Proof.
  intros Hlen Hrow Hloc. unfold set_row_body, py_getitem2.
  destruct (py_str_getitem text col) as [ch|];
    [|exists (Raise IndexError), o, cs; by repeat split].
  rewrite !bind_from_some, !bind_get.
  cbn [self ddram_value with_refresh_loc].
  rewrite (py_getitem_neg _ row Hlen Hrow).
  destruct (py_getitem (ddram_value o) (row + 4)) as [cells|] eqn:Hcells;
    [|exists (Raise IndexError), o, cs; by repeat split].
  cbn [mbind option_bind].
  destruct (py_getitem cells col) as [v|];
    [|exists (Raise IndexError), o, cs; by repeat split].
  rewrite !bind_from_some.
  destruct (py_int_ne (ord ch) v); [|by exists (Ok tt), o, cs].
  rewrite !bind_from_some, !bind_get.
  cbn [self ddram_value with_refresh_loc].
  rewrite (py_getitem_neg _ row Hlen Hrow), Hcells, !bind_from_some.
  destruct (py_setitem cells col (VInt (ord ch))) as [cells'|];
    [|exists (Raise IndexError), o, cs; by repeat split].
  rewrite !bind_from_some, (py_setitem_neg _ row _ Hlen Hrow).
  destruct (py_setitem (ddram_value o) (row + 4) cells') as [grid'|] eqn:Hgrid;
    [|exists (Raise IndexError), o, cs; by repeat split].
  rewrite !bind_from_some, !bind_modify, !bind_get.
  exists (Ok tt),
    (with_refresh_loc (refresh_loc o ++ [(row + 4, col)]) (with_ddram_value grid' o)),
    (cs ++ [col]).
  split; [done|]. split; [|split].
  - unfold modify_self. cbn. rewrite fmap_app, app_assoc. done.
  - cbn. rewrite (py_setitem_length _ _ _ _ Hgrid). done.
  - cbn. rewrite Hloc, fmap_app, app_assoc. done.
Qed.

Lemma set_row_loop_neg cols o e row text l cs :
  length (ddram_value o) = 4%nat → -4 ≤ row ≤ -1 →
  refresh_loc o = l ++ ((λ c, (row + 4, c)) <$> cs) →
  ∃ res o' cs',
    for_each cols (set_row_body (row + 4) text) (mkState o e) =
      (res, mkState o' e) ∧
    for_each cols (set_row_body row text)
      (mkState (with_refresh_loc (l ++ ((λ c, (row, c)) <$> cs)) o) e) =
      (res, mkState (with_refresh_loc (l ++ ((λ c, (row, c)) <$> cs')) o') e) ∧
    refresh_loc o' = l ++ ((λ c, (row + 4, c)) <$> cs').
Proof.
  intros Hlen Hrow. revert o cs Hlen.
  induction cols as [|col cols IH]; intros o cs Hlen Hloc.
  - by exists (Ok tt), o, cs.
  - destruct (set_row_body_neg o e row text col l cs Hlen Hrow Hloc)
      as (res & o1 & cs1 & H1 & H2 & Hlen1 & Hloc1).
    cbn [for_each]. unfold mbind, M_bind. rewrite H1, H2.
    destruct res as [u|x]; [|by exists (Raise x), o1, cs1].
    apply IH; done.
Qed.

(** X10. A row of -4..-1 is taken as Python takes a negative index:
    on a well-formed object [set_row(row, T)] returns and stores the
    padded text in row [row + 4], as [set_row(row + 4, T)] does, but the
    coordinates that it appends carry the negative [row] itself; they
    are outside 0..3. *)
Theorem set_row_negative_row o e row text wrap :
  wf o → -4 ≤ row ≤ -1 →
  ∃ o',
    set_row row text wrap (mkState o e) = (Ok tt, mkState o' e) ∧
    ddram_value o' = <[Z.to_nat (row + 4) := VInt <$> padded text]> (ddram_value o) ∧
    refresh_loc o' =
      refresh_loc o ++
      ((λ c, (row, c)) <$>
         filter (λ c, differs o (row + 4) text c = true) (py_range 0 20)) ∧
    Forall (λ loc, ¬ loc_ok loc) (drop (length (refresh_loc o)) (refresh_loc o')).
Proof.
  intros Hwf Hrow.
  destruct (set_row_loop_neg (py_range 0 20) o e row (py_format20 text)
              (refresh_loc o) [] (wf_rows o Hwf) Hrow)
    as (res & o2 & cs & H1 & H2 & Hloc); [by rewrite app_nil_r|].
  change (for_each (py_range 0 20) (set_row_body (row + 4) (py_format20 text)))
    with (set_row (row + 4) text wrap) in H1.
  rewrite set_row_eq in H1 by (lia || apply Hwf).
  injection H1 as <- <-.
  cbn [fmap list_fmap] in H2. rewrite app_nil_r in H2.
  assert (with_refresh_loc (refresh_loc o) o = o) as Ho by (by destruct o).
  rewrite Ho in H2.
  cbn [set_row_upto refresh_loc with_refresh_loc] in Hloc.
  apply app_inv_head in Hloc.
  assert (Inj (=) (=) (λ c : Z, (row + 4, c))) as Hinj by (intros c1 c2 [=]; done).
  apply (inj (fmap _)) in Hloc. subst cs.
  eexists. split; [exact H2|]. split; [|split].
  - cbn [ddram_value with_refresh_loc].
    apply set_row_upto_grid; [lia | apply Hwf | apply Hwf].
  - done.
  - cbn [refresh_loc with_refresh_loc]. rewrite drop_app_length.
    apply Forall_fmap, Forall_forall. intros c _ [Hr _]. cbn in Hr. lia.
Qed.

Lemma set_row_negative_row_witness :
  ∃ o',
    set_row (-1) "hi" false fresh = (Ok tt, mkState o' (env fresh)) ∧
    refresh_loc o' = (λ c, (-1, c)) <$> py_range 0 20 ∧
    cell o' 3 0 = Some (VInt 104).
Proof.
  destruct (set_row_negative_row (self fresh) (env fresh) (-1) "hi" false
              (wf_new_lcd 39)) as (o' & Hrun & Hgrid & Hloc & _).
  - lia.
  - exists o'. split; [exact Hrun|]. split.
    + rewrite Hloc. vm_compute. reflexivity.
    + unfold cell. rewrite Hgrid. vm_compute. reflexivity.
Defined.

(** ** The constructor *)

Lemma quiet_at e t j n m :
  quiet e n → (∃ k, j = (attempts e + k)%nat ∧ (k + m ≤ n)%nat) →
  quiet (mkEnv t j (nack e)) m.
Proof.
  intros Hq (k & -> & Hk) i Hi. cbn. rewrite <- Nat.add_assoc. apply Hq. lia.
Qed.

Lemma quiet_app e t n m :
  quiet e n → quiet (mkEnv t (attempts e + n) (nack e)) m → quiet e (n + m).
Proof.
  intros Hn Hm k Hk. destruct (decide (k < n)%nat) as [Hlt | Hge].
  - by apply Hn.
  - specialize (Hm (k - n)%nat ltac:(lia)). cbn in Hm.
    rewrite <- Hm. f_equal. lia.
Qed.

Lemma quiet_env e1 e2 n :
  attempts e1 = attempts e2 → nack e1 = nack e2 → quiet e1 n → quiet e2 n.
Proof. intros Ha Hf Hq k Hk. rewrite <- Ha, <- Hf. by apply Hq. Qed.

Lemma bind_assoc {A B C} (m : M A) (f : A → M B) (g : B → M C) s :
  ((m ≫= f) ≫= g) s = (m ≫= λ a, f a ≫= g) s.
Proof. unfold mbind, M_bind. by destruct (m s) as [[a|x] s']. Qed.

Lemma bind_emit_eq {B} ev (k : unit → M B) o e :
  (emit ev ≫= k) (mkState o e) =
  k tt (mkState o (mkEnv (trace e ++ [ev]) (attempts e) (nack e))).
Proof. done. Qed.

Lemma bind_write4bits_quiet {B} d (k : unit → M B) o e :
  forallb is_byte (nibble_wire (backlight o) d) = true → quiet e 3 →
  (write4bits d ≫= k) (mkState o e) =
  k tt (mkState o (mkEnv (trace e ++ wrote (addr o) (nibble_wire (backlight o) d))
                     (attempts e + 3) (nack e))).
Proof.
  intros Hb Hq. unfold mbind, M_bind.
  by rewrite write4bits_on_bus, on_bus_quiet.
Qed.

Lemma bind_write4bits_refused {B} d (k : unit → M B) o e :
  forallb is_byte (nibble_wire (backlight o) d) = true →
  (∃ j, (j < 3)%nat ∧ nack e (attempts e + j) = true) →
  ∃ e', (write4bits d ≫= k) (mkState o e) = (Raise TransportError, mkState o e').
Proof.
  intros Hb Hn. unfold mbind, M_bind. rewrite write4bits_on_bus by done.
  destruct (on_bus_nack (addr o) (nibble_wire (backlight o) d) o e Hn) as [e' ->].
  by exists e'.
Qed.

Lemma bind_send_quiet {B} data mode (k : unit → M B) o e :
  backlight o = BACKLIGHT_OFF ∨ backlight o = BACKLIGHT_ON →
  mode = COMMAND ∨ mode = DATA → quiet e 6 →
  (send data mode ≫= k) (mkState o e) =
  k tt (mkState o (mkEnv (trace e ++ wrote (addr o) (send_wire (backlight o) data mode))
                     (attempts e + 6) (nack e))).
Proof.
  intros Hbl Hmode Hq. unfold mbind, M_bind. by rewrite send_quiet.
Qed.

Lemma bind_send_refused {B} data mode (k : unit → M B) o e :
  backlight o = BACKLIGHT_OFF ∨ backlight o = BACKLIGHT_ON →
  mode = COMMAND ∨ mode = DATA →
  (∃ j, (j < 6)%nat ∧ nack e (attempts e + j) = true) →
  ∃ e', (send data mode ≫= k) (mkState o e) = (Raise TransportError, mkState o e').
Proof.
  intros Hbl Hmode Hn. unfold mbind, M_bind. rewrite send_on_bus by done.
  destruct (on_bus_nack (addr o) (send_wire (backlight o) data mode) o e Hn)
    as [e' ->].
  by exists e'.
Qed.

(** X11. On a bus that accepts 18 writes the constructor returns.  It
    has printed, slept one second, written the nibbles 0000 and 0010
    alone (three bus bytes each), sent the clear-display command, slept
    10 ms, sent display-control(on, cursor off, blink off) and printed
    again, every byte with the backlight bit; the object has the
    backlight on, the cursor on (0, 0), a grid of [" "] and an empty
    dirty list. *)
Theorem init_handshake e a :
  quiet e 18 →
  __init__ e a =
  (Ok tt,
   mkState (new_lcd a)
     (mkEnv (trace e ++ init_events a) (attempts e + 18) (nack e))).
Proof.
  intros Hq. unfold __init__, init_body.
  rewrite !bind_emit_eq. cbn [trace attempts nack].
  rewrite bind_write4bits_quiet;
    [|reflexivity | apply (quiet_at e _ _ 18 _ Hq); exists 0%nat; split; lia].
  cbn [trace attempts nack].
  rewrite bind_write4bits_quiet;
    [|reflexivity | apply (quiet_at e _ _ 18 _ Hq); exists 3%nat; split; lia].
  cbn [trace attempts nack].
  unfold clear_display. rewrite !bind_assoc.
  rewrite bind_send_quiet;
    [|by right | by left
     |apply (quiet_at e _ _ 18 _ Hq); exists 6%nat; split; lia].
  repeat first [rewrite bind_assoc | rewrite bind_modify | rewrite bind_emit_eq
               | progress cbn [self env trace attempts nack]].
  unfold set_display_control.
  rewrite bind_send_quiet;
    [|by right | by left
     |apply (quiet_at e _ _ 18 _ Hq); exists 12%nat; split; lia].
  unfold emit. cbn [self env trace attempts nack]. f_equal. f_equal.
  f_equal; [|lia]. rewrite <- !app_assoc. reflexivity.
Qed.

Lemma init_handshake_witness :
  __init__ good_bus 39 =
  (Ok tt, mkState (new_lcd 39) (mkEnv (init_events 39) 18 (nack good_bus))).
Proof.
  apply (init_handshake good_bus 39). intros k Hk. reflexivity.
Defined.

(** X12. When the bus refuses one of the 18 writes of the constructor,
    the constructor raises [TransportError]: no driver is returned. *)
Theorem init_refused e a :
  (∃ k, (k < 18)%nat ∧ nack e (attempts e + k) = true) →
  ∃ e', __init__ e a = (Raise TransportError, mkState (new_lcd a) e').
Proof.
  intros (k & Hk & Hn). unfold __init__, init_body.
  rewrite !bind_emit_eq. cbn [trace attempts nack].
  match goal with |- context [mkState _ ?x] => destruct (quiet_dec x 3) as [Q1 | N1] end;
    [|by apply bind_write4bits_refused].
  rewrite bind_write4bits_quiet; [|reflexivity | exact Q1].
  cbn [trace attempts nack].
  match goal with |- context [mkState _ ?x] => destruct (quiet_dec x 3) as [Q2 | N2] end;
    [|by apply bind_write4bits_refused].
  rewrite bind_write4bits_quiet; [|reflexivity | exact Q2].
  cbn [trace attempts nack].
  unfold clear_display. rewrite !bind_assoc.
  match goal with |- context [mkState _ ?x] => destruct (quiet_dec x 6) as [Q3 | N3] end;
    [|apply bind_send_refused; [by right | by left | done]].
  rewrite bind_send_quiet; [|by right | by left | exact Q3].
  repeat first [rewrite bind_assoc | rewrite bind_modify | rewrite bind_emit_eq
               | progress cbn [self env trace attempts nack]].
  unfold set_display_control.
  match goal with |- context [mkState _ ?x] => destruct (quiet_dec x 6) as [Q4 | N4] end;
    [|apply bind_send_refused; [by right | by left | done]].
  exfalso.
  assert (quiet e 3) as H3 by (intros j Hj; apply (Q1 j Hj)).
  assert (quiet e (3 + 3)) as H6.
  { apply (quiet_app e [] 3 3 H3). by apply (quiet_env _ _ 3 eq_refl eq_refl Q2). }
  assert (quiet e (6 + 6)) as H12.
  { apply (quiet_app e [] 6 6 H6).
    eapply quiet_env; [| |exact Q3]; cbn; [lia | reflexivity]. }
  assert (quiet e (12 + 6)) as H18.
  { apply (quiet_app e [] 12 6 H12).
    eapply quiet_env; [| |exact Q4]; cbn; [lia | reflexivity]. }
  rewrite (H18 k) in Hn by lia. discriminate.
Qed.

Lemma init_refused_witness :
  ∃ e', __init__ dead_bus 39 = (Raise TransportError, mkState (new_lcd 39) e').
Proof.
  apply (init_refused dead_bus 39). exists 0%nat. split; [lia | reflexivity].
Defined.

(** ** The backlight, the cursor and the clearing of the display *)

(** X13. [set_backlight] stores the new backlight bit before it touches
    the bus, so the object has it whether the call returns or raises,
    and nothing else in the object changes; on a bus that accepts six
    writes the call returns, and its six bytes are the new backlight
    bit alone, with the enable bit on the second and the fifth. *)
Theorem set_backlight_effect o e (enable : bool) :
  let bl := if enable then BACKLIGHT_ON else BACKLIGHT_OFF in
  (∀ (r : result unit) (s' : state),
     set_backlight enable (mkState o e) = (r, s') →
     self s' = with_backlight bl o) ∧
  (quiet e 6 →
   set_backlight enable (mkState o e) =
   (Ok tt,
    mkState (with_backlight bl o)
      (mkEnv (trace e ++ wrote (addr o) [bl; bl + 4; bl; bl; bl + 4; bl])
         (attempts e + 6) (nack e)))).
Proof.
  cbv zeta. split.
  - intros r s' H. unfold set_backlight in H.
    assert (set_backlight enable (mkState o e) =
            send 0 COMMAND
              (mkState (with_backlight
                          (if enable then BACKLIGHT_ON else BACKLIGHT_OFF) o) e))
      as Heq by (by destruct enable).
    unfold set_backlight in Heq. rewrite Heq in H.
    pose proof (keeps_self_send 0 COMMAND
                  (mkState (with_backlight
                              (if enable then BACKLIGHT_ON else BACKLIGHT_OFF) o) e))
      as Hk.
    rewrite H in Hk. exact Hk.
  - intros Hq. unfold set_backlight.
    destruct enable; rewrite bind_modify; cbn [self env];
      (rewrite send_quiet; [reflexivity | first [by right | by left] | by left | done]).
Qed.

Lemma set_backlight_effect_witness :
  set_backlight false fresh =
  (Ok tt,
   mkState (with_backlight 0 (self fresh))
     (mkEnv (trace (env fresh) ++ wrote 39 [0; 4; 0; 0; 4; 0]) 24
        (nack (env fresh)))).
Proof.
  destruct (set_backlight_effect (self fresh) (env fresh) false) as [_ H].
  apply H. intros k Hk. reflexivity.
Defined.

(** X14. [return_home] that returns has put the cursor on (0, 0) and
    changed nothing else in the object; one that raises has changed
    nothing.  Unlike [clear_display] it keeps the dirty list. *)
Theorem return_home_post s :
  (∀ s', return_home s = (Ok tt, s') →
         self s' = with_cursor_loc (0, 0) (self s)) ∧
  (∀ x s', return_home s = (Raise x, s') → self s' = self s) ∧
  refresh_loc (self (return_home s).2) = refresh_loc (self s) ∧
  ddram_value (self (return_home s).2) = ddram_value (self s).
Proof.
  unfold return_home, mbind, M_bind.
  pose proof (keeps_self_send RETURN_HOME COMMAND s) as Hk.
  destruct (send RETURN_HOME COMMAND s) as [[u|x] s1]; cbn in *.
  - split; [|split; [|split]].
    + intros s' [= <-]. cbn. by rewrite Hk.
    + intros x s' [=].
    + by rewrite Hk.
    + by rewrite Hk.
  - split; [|split; [|split]].
    + intros s' [=].
    + intros y s' [= <- <-]. done.
    + by rewrite Hk.
    + by rewrite Hk.
Qed.

Lemma return_home_post_witness :
  refresh_loc (self (return_home pending).2) = refresh_loc (self pending) ∧
  (return_home pending).1 = Ok tt.
Proof.
  destruct (return_home_post pending) as (_ & _ & H & _).
  split; [exact H | vm_compute; reflexivity].
Defined.

Lemma refresh_empty s : refresh_loc (self s) = [] → refresh s = (Ok tt, s).
Proof.
  destruct s as [o e]. cbn [self]. intros Ht. unfold refresh. rewrite bind_get.
  cbn [self]. rewrite Ht. destruct o; cbn in *. by subst.
Qed.

(** X15. [clear_display] forgets the pending cells but not the grid:
    on a well-formed object, [set_row(r, T)], [clear_display()],
    [set_row(r, T)] and [refresh()] in a row, on a bus that accepts the
    six writes of the clear command, all return; the only bus traffic
    is the clear command, the grid holds [T] on row [r] and the dirty
    list is empty. No data write of [T] is ever made. *)
Theorem clear_display_drops_pending o e row text wrap1 wrap2 :
  wf o → 0 ≤ row ≤ 3 → quiet e 6 →
  ∃ o' e',
    (set_row row text wrap1 ;; clear_display ;;
     set_row row text wrap2 ;; refresh) (mkState o e) =
      (Ok tt, mkState o' e') ∧
    trace e' =
      trace e ++
      wrote (addr o) (send_wire (backlight o) CLEAR_DISPLAY COMMAND) ++
      [Sleep 10] ∧
    (∀ c, 0 ≤ c ≤ 19 → cell o' row c = Some (VInt (code_at text c))) ∧
    refresh_loc o' = [].
Proof.
  intros Hwf Hrow Hq.
  pose proof (wf_set_row o row text Hwf Hrow) as Hwf1.
  set (o1 := set_row_upto 20 row text o) in *.
  set (o2 := with_refresh_loc [] (with_cursor_loc (0, 0) o1)).
  assert (wf o2) as Hwf2 by (by apply stable_wf, stable_wf).
  assert (set_row_upto 20 row text o2 = o2) as Hagain.
  { rewrite <- (with_same o2) at 2. unfold set_row_upto at 1. f_equal.
    - rewrite filter_none; [done|].
      intros c Hc. apply elem_of_py_range in Hc. unfold differs.
      change (cell o2 row c) with (cell o1 row c). unfold o1.
      rewrite cell_set_row by (done || lia || apply Hwf).
      rewrite bool_decide_true by done. cbn. by rewrite Z.eqb_refl.
    - f_equal. change (ddram_value o2) with (ddram_value o1).
      rewrite drop_ge, app_nil_r.
      + rewrite take_ge by (rewrite padded_length; lia).
        unfold o1. rewrite set_row_upto_grid by (done || apply Hwf).
        by rewrite list_insert_insert_eq.
      + destruct (lookup_lt_is_Some_2 (ddram_value o1) (Z.to_nat row)) as [x Hx];
          [rewrite (wf_rows o1 Hwf1); lia|].
        rewrite Hx. cbn.
        rewrite (Forall_lookup_1 _ _ _ _ (wf_cols o1 Hwf1) Hx). lia. }
  exists o2. eexists. split; [|split; [|split]].
  - unfold mbind at 1, M_bind.
    rewrite set_row_eq by (done || apply Hwf). fold o1.
    unfold clear_display. rewrite !bind_assoc.
    rewrite bind_send_quiet; [|apply (wf_backlight o1 Hwf1) | by left | done].
    repeat first [rewrite bind_assoc | rewrite bind_modify | rewrite bind_emit_eq
                 | progress cbn [self env trace attempts nack]].
    fold o2. unfold mbind at 1, M_bind.
    rewrite set_row_eq by (done || apply Hwf2). rewrite Hagain.
    apply refresh_empty. done.
  - cbn [trace]. by rewrite <- app_assoc.
  - intros c Hc. change (cell o2 row c) with (cell o1 row c). unfold o1.
    rewrite cell_set_row by (done || apply Hwf).
    by rewrite bool_decide_true.
  - done.
Qed.

Lemma clear_display_drops_pending_witness :
  ∃ o' e',
    (set_row 0 "Hello" false ;; clear_display ;;
     set_row 0 "Hello" false ;; refresh) fresh = (Ok tt, mkState o' e') ∧
    trace e' = trace (env fresh) ++ wrote 39 [8; 12; 8; 24; 28; 24] ++ [Sleep 10] ∧
    cell o' 0 0 = Some (VInt 72).
Proof.
  destruct (clear_display_drops_pending (self fresh) (env fresh) 0 "Hello"
              false false (wf_new_lcd 39)) as (o' & e' & Hrun & Htr & Hcell & _).
  - lia.
  - intros k Hk. reflexivity.
  - exists o', e'. split; [exact Hrun|]. split; [exact Htr|].
    apply (Hcell 0). lia.
Defined.

(** ** What no run changes *)

Lemma preserves_from_option {A} P x (o : option A) : preserves P (from_option x o).
Proof. apply preserves_keeps, keeps_self_from_option. Qed.

Lemma preserves_get P : preserves P get_self.
Proof. apply preserves_keeps, keeps_self_get. Qed.

Lemma preserves_for_each {A} P (l : list A) body :
  (∀ x, preserves P (body x)) → preserves P (for_each l body).
Proof.
  intros H. induction l as [|x l IH]; [by intros s|].
  apply preserves_bind; [apply H | intros _; apply IH].
Qed.

(** [set_row] with any row maintains what the writes of the grid and of
    the dirty list cannot break. *)
Lemma preserves_set_row P row text wrap :
  (∀ o g, P o → P (with_ddram_value g o)) →
  (∀ o l, P o → P (with_refresh_loc l o)) →
  preserves P (set_row row text wrap).
Proof.
  intros Hgrid Hloc. apply preserves_for_each. intros col. unfold set_row_body.
  apply preserves_bind; [apply preserves_from_option | intros ch].
  apply preserves_bind; [apply preserves_get | intros o].
  apply preserves_bind; [apply preserves_from_option | intros v].
  destruct (py_int_ne (ord ch) v); [|by intros s].
  apply preserves_bind; [apply preserves_from_option | intros ch'].
  apply preserves_bind; [apply preserves_get | intros o'].
  apply preserves_bind; [apply preserves_from_option | intros cells].
  apply preserves_bind; [apply preserves_from_option | intros cells'].
  apply preserves_bind; [apply preserves_from_option | intros grid'].
  apply preserves_bind; [apply preserves_modify; intros; by apply Hgrid | intros _].
  apply preserves_bind; [apply preserves_get | intros o''].
  apply preserves_modify. intros. by apply Hloc.
Qed.

(** X16. Whatever the calls and their arguments, and whether the
    constructor and the calls return or raise, the object keeps the
    device address and the address map of the constructor, its
    backlight bit is 0 or 8, and its cursor is on (0, 0): no method
    ever moves the cursor. *)
Theorem run_keeps_identity e a calls :
  let o := self (run calls (__init__ e a).2) in
  addr o = a ∧
  ddram_map o = ddram_map (new_lcd a) ∧
  (backlight o = BACKLIGHT_OFF ∨ backlight o = BACKLIGHT_ON) ∧
  cursor_loc o = (0, 0).
Proof.
  set (P := λ o, addr o = a ∧ ddram_map o = ddram_map (new_lcd a) ∧
                 (backlight o = BACKLIGHT_OFF ∨ backlight o = BACKLIGHT_ON) ∧
                 cursor_loc o = (0, 0)).
  assert (stable P) as HP.
  { split.
    - intros o b (H1 & H2 & H3 & H4). repeat split; try done.
      destruct b; cbn; auto.
    - intros o (H1 & H2 & H3 & H4). by repeat split.
    - intros o (H1 & H2 & H3 & H4). by repeat split. }
  assert (∀ c, preserves P (perform c)) as Hstep.
  { intros c. destruct (is_set_row c) eqn:Hc.
    - destruct c; try discriminate Hc. cbn [perform].
      apply preserves_set_row; by intros o x (H1 & H2 & H3 & H4).
    - by apply preserves_perform. }
  cbv zeta. change (P (self (run calls (__init__ e a).2))).
  assert (P (self (__init__ e a).2)) as Hinit.
  { rewrite init_self. unfold P. repeat split; try done. by right. }
  revert Hinit. generalize (__init__ e a).2.
  induction calls as [|c calls IH]; intros s Hs; [done|].
  apply IH. by apply Hstep.
Qed.

(** ** The traffic on the bus *)

Lemma tidy_bind {A B} a (m : M A) (k : A → M B) :
  tidy a m → (∀ x, tidy a (k x)) → tidy a (m ≫= k).
Proof.
  intros Hm Hk s Hs. specialize (Hm s Hs). unfold mbind, M_bind.
  destruct (m s) as [[x|y] s1]; cbn [snd] in *; [|done].
  destruct Hm as (Ha & Hn & Hatt & evs & Ht & Hf).
  destruct (Hk x s1 Ha) as (Ha' & Hn' & Hatt' & evs' & Ht' & Hf').
  split; [done|]. split; [congruence|]. split; [lia|].
  exists (evs ++ evs'). split; [|by apply Forall_app].
  by rewrite Ht', Ht, app_assoc.
Qed.

Lemma tidy_pure {A} a (m : M A) : (∀ s, (m s).2 = s) → tidy a m.
Proof.
  intros H s Hs. rewrite H. split; [done|]. split; [done|]. split; [done|].
  exists []. by rewrite app_nil_r.
Qed.

Lemma tidy_get {B} a (k : CHAR_LCD_20_4 → M B) :
  (∀ o, addr o = a → tidy a (k o)) → tidy a (get_self ≫= k).
Proof. intros H s Hs. rewrite bind_get. by apply H. Qed.

Lemma tidy_from_option {A} a x (o : option A) : tidy a (from_option x o).
Proof. apply tidy_pure. by destruct o. Qed.

Lemma tidy_modify a f : (∀ o, addr (f o) = addr o) → tidy a (modify_self f).
Proof.
  intros H s Hs. cbn. rewrite H. split; [done|]. split; [done|]. split; [done|].
  exists []. by rewrite app_nil_r.
Qed.

Lemma tidy_emit a ev : own_event a ev → tidy a (emit ev).
Proof.
  intros H s Hs. cbn. split; [done|]. split; [done|]. split; [done|].
  exists [ev]. split; [done|]. by apply Forall_singleton.
Qed.

Lemma tidy_write a d : tidy a (write d).
Proof.
  apply tidy_get. intros o Ho. cbv zeta. case_bool_decide as Hv.
  - intros s Hs. unfold i2c_writeto. destruct (nack (env s) (attempts (env s))); cbn.
    + split; [done|]. split; [done|]. split; [lia|].
      exists []. by rewrite app_nil_r.
    + split; [done|]. split; [done|]. split; [lia|].
      eexists. split; [done|]. apply Forall_singleton. cbn. eauto.
  - by apply tidy_pure.
Qed.

Lemma tidy_write4bits a d : tidy a (write4bits d).
Proof.
  apply tidy_bind; [apply tidy_write | intros _].
  apply tidy_bind; [|intros _]; apply tidy_write.
Qed.

Lemma tidy_send a data mode : tidy a (send data mode).
Proof. apply tidy_bind; [|intros _]; apply tidy_write4bits. Qed.

Lemma tidy_for_each {A} a (l : list A) body :
  (∀ x, tidy a (body x)) → tidy a (for_each l body).
Proof.
  intros H. induction l as [|x l IH]; [by apply tidy_pure|].
  apply tidy_bind; [apply H | intros _; apply IH].
Qed.

Lemma tidy_perform a c : tidy a (perform c).
Proof.
  destruct c; cbn [perform];
    try apply tidy_send; try apply tidy_write4bits; try apply tidy_write.
  - apply tidy_bind; [|intros _]; apply tidy_write.
  - apply tidy_bind; [|intros _; apply tidy_send].
    destruct enable; by apply tidy_modify.
  - apply tidy_bind; [apply tidy_send | intros _].
    apply tidy_bind; [by apply tidy_modify | intros _].
    apply tidy_bind; [by apply tidy_modify | intros _].
    by apply tidy_emit.
  - apply tidy_bind; [apply tidy_send | intros _].
    apply tidy_bind; [by apply tidy_modify | intros _].
    by apply tidy_emit.
  - destruct data; [by apply tidy_pure | apply tidy_send].
  - apply tidy_get. intros o _.
    apply tidy_bind; [|intros _; by apply tidy_modify].
    apply tidy_for_each. intros loc. unfold refresh_body.
    apply tidy_get. intros o1 _.
    apply tidy_bind; [apply tidy_from_option | intros x].
    apply tidy_bind; [apply tidy_send | intros _].
    apply tidy_get. intros o2 _.
    apply tidy_bind; [apply tidy_from_option | intros v].
    destruct v; [by apply tidy_pure | apply tidy_send].
  - apply tidy_for_each. intros col. unfold set_row_body.
    apply tidy_bind; [apply tidy_from_option | intros ch].
    apply tidy_get. intros o _.
    apply tidy_bind; [apply tidy_from_option | intros v].
    destruct (py_int_ne (ord ch) v); [|by apply tidy_pure].
    apply tidy_bind; [apply tidy_from_option | intros ch'].
    apply tidy_get. intros o' _.
    apply tidy_bind; [apply tidy_from_option | intros cells].
    apply tidy_bind; [apply tidy_from_option | intros cells'].
    apply tidy_bind; [apply tidy_from_option | intros grid'].
    apply tidy_bind; [by apply tidy_modify | intros _].
    apply tidy_get. intros o'' _. by apply tidy_modify.
Qed.

Lemma tidy_init_body a : tidy a init_body.
Proof.
  unfold init_body.
  apply tidy_bind; [by apply tidy_emit | intros _].
  apply tidy_bind; [by apply tidy_emit | intros _].
  apply tidy_bind; [apply tidy_write4bits | intros _].
  apply tidy_bind; [apply tidy_write4bits | intros _].
  apply tidy_bind; [apply (tidy_perform a CallClearDisplay) | intros _].
  apply tidy_bind; [apply tidy_send | intros _].
  by apply tidy_emit.
Qed.

(** X17. Whatever the calls and their arguments, the driver never
    writes to a device other than its own, never writes more or less
    than one byte of 0..255 in a transaction, and never removes an
    event: the trace after the run is the trace before the constructor
    followed by events of the driver's own device, and the count of bus
    attempts has not gone down. *)
Theorem run_bus_discipline e a calls :
  let s := run calls (__init__ e a).2 in
  (attempts e ≤ attempts (env s))%nat ∧
  nack (env s) = nack e ∧
  ∃ evs, trace (env s) = trace e ++ evs ∧ Forall (own_event a) evs.
Proof.
  set (G := λ s : state,
         addr (self s) = a ∧ (attempts e ≤ attempts (env s))%nat ∧
         nack (env s) = nack e ∧
         ∃ evs, trace (env s) = trace e ++ evs ∧ Forall (own_event a) evs).
  assert (G (__init__ e a).2) as Hinit.
  { destruct (tidy_init_body a (mkState (new_lcd a) e) eq_refl)
      as (Ha & Hn & Hatt & evs & Ht & Hf).
    split; [done|]. split; [done|]. split; [done|]. by exists evs. }
  assert (∀ s c, G s → G (step s c)) as Hstep.
  { intros s c (Ha & Hatt & Hn & evs & Ht & Hf).
    destruct (tidy_perform a c s Ha) as (Ha' & Hn' & Hatt' & evs' & Ht' & Hf').
    split; [done|]. split; [unfold step; lia|]. split; [unfold step; congruence|].
    exists (evs ++ evs'). split; [|by apply Forall_app].
    unfold step. by rewrite Ht', Ht, app_assoc. }
  assert (G (run calls (__init__ e a).2)) as (_ & H).
  { revert Hinit. generalize (__init__ e a).2.
    induction calls as [|c calls IH]; intros s Hs; [done|].
    apply IH. by apply Hstep. }
  exact H.
Qed.

(** ** The command encoders *)

(** A command byte of 0..255 on a bus that accepts six writes: the
    method returns, the six writes are those of the byte in command
    mode, and the two setup writes decode to the byte. *)
Lemma command_sent o e byte :
  backlight o = BACKLIGHT_OFF ∨ backlight o = BACKLIGHT_ON →
  0 ≤ byte ≤ 255 → quiet e 6 →
  send byte COMMAND (mkState o e) =
    (Ok tt,
     mkState o (mkEnv (trace e ++ wrote (addr o) (send_wire (backlight o) byte COMMAND))
                  (attempts e + 6) (nack e))) ∧
  decode (default 0 (send_wire (backlight o) byte COMMAND !! 0%nat))
         (default 0 (send_wire (backlight o) byte COMMAND !! 3%nat)) =
    (byte, COMMAND).
Proof.
  intros Hbl Hbyte Hq. split.
  - apply send_quiet; [done | by left | done].
  - apply decode_send_wire; [done | by left | done].
Qed.

(** X18. [set_entry_mode] with the documented values ([ENTRY_RIGHT] or
    [ENTRY_LEFT], shift enabled or disabled) sends, in command mode,
    the byte [4 + dir + shift]; it is of 4..7, it is read back from the
    two setup writes, and both values are read back from it with the
    masks 2 and 1. *)
Theorem set_entry_mode_encoding o e dir shift :
  dir = ENTRY_RIGHT ∨ dir = ENTRY_LEFT →
  shift = DISPLAY_SHIFT_ENABLE ∨ shift = DISPLAY_SHIFT_DISABLE →
  backlight o = BACKLIGHT_OFF ∨ backlight o = BACKLIGHT_ON →
  quiet e 6 →
  let byte := ENTRY_MODE + dir + shift in
  set_entry_mode dir shift (mkState o e) =
    (Ok tt,
     mkState o (mkEnv (trace e ++ wrote (addr o) (send_wire (backlight o) byte COMMAND))
                  (attempts e + 6) (nack e))) ∧
  decode (default 0 (send_wire (backlight o) byte COMMAND !! 0%nat))
         (default 0 (send_wire (backlight o) byte COMMAND !! 3%nat)) =
    (byte, COMMAND) ∧
  4 ≤ byte ≤ 7 ∧ Z.land byte 2 = dir ∧ Z.land byte 1 = shift.
Proof.
  intros Hdir Hshift Hbl Hq byte.
  assert (Z.lor (Z.lor ENTRY_MODE dir) shift = byte ∧ 4 ≤ byte ≤ 7 ∧
          Z.land byte 2 = dir ∧ Z.land byte 1 = shift) as (Hb & Hr & H1 & H2).
  { subst byte. destruct Hdir as [-> | ->], Hshift as [-> | ->];
      vm_compute; repeat split; congruence. }
  destruct (command_sent o e byte Hbl ltac:(lia) Hq) as [Hs Hd].
  unfold set_entry_mode. rewrite Hb. done.
Qed.

Lemma set_entry_mode_encoding_witness :
  set_entry_mode ENTRY_LEFT DISPLAY_SHIFT_DISABLE fresh =
  (Ok tt,
   mkState (self fresh)
     (mkEnv (trace (env fresh) ++ wrote 39 [8; 12; 8; 104; 108; 104]) 24
        (nack (env fresh)))).
Proof.
  destruct (set_entry_mode_encoding (self fresh) (env fresh)
              ENTRY_LEFT DISPLAY_SHIFT_DISABLE) as (Hrun & _).
  - by right.
  - by right.
  - by right.
  - intros k Hk. reflexivity.
  - exact Hrun.
Defined.

(** X19. [set_display_control] with the documented values sends, in
    command mode, the byte [8 + dis + cur + blink]; it is of 8..15, it
    is read back from the two setup writes, and the three values are
    read back from it with the masks 4, 2 and 1. *)
Theorem set_display_control_encoding o e dis cur blink :
  dis = DISPLAY_ON ∨ dis = DISPLAY_OFF →
  cur = CURSOR_ON ∨ cur = CURSOR_OFF →
  blink = BLINK_ON ∨ blink = BLINK_OFF →
  backlight o = BACKLIGHT_OFF ∨ backlight o = BACKLIGHT_ON →
  quiet e 6 →
  let byte := DISPLAY_CONTROL + dis + cur + blink in
  set_display_control dis cur blink (mkState o e) =
    (Ok tt,
     mkState o (mkEnv (trace e ++ wrote (addr o) (send_wire (backlight o) byte COMMAND))
                  (attempts e + 6) (nack e))) ∧
  decode (default 0 (send_wire (backlight o) byte COMMAND !! 0%nat))
         (default 0 (send_wire (backlight o) byte COMMAND !! 3%nat)) =
    (byte, COMMAND) ∧
  8 ≤ byte ≤ 15 ∧
  Z.land byte 4 = dis ∧ Z.land byte 2 = cur ∧ Z.land byte 1 = blink.
Proof.
  intros Hdis Hcur Hblink Hbl Hq byte.
  assert (Z.lor (Z.lor (Z.lor DISPLAY_CONTROL dis) cur) blink = byte ∧
          8 ≤ byte ≤ 15 ∧ Z.land byte 4 = dis ∧ Z.land byte 2 = cur ∧
          Z.land byte 1 = blink) as (Hb & Hr & H1 & H2 & H3).
  { subst byte.
    destruct Hdis as [-> | ->], Hcur as [-> | ->], Hblink as [-> | ->];
      vm_compute; repeat split; congruence. }
  destruct (command_sent o e byte Hbl ltac:(lia) Hq) as [Hs Hd].
  unfold set_display_control. rewrite Hb. done.
Qed.

Lemma set_display_control_encoding_witness :
  set_display_control DISPLAY_ON CURSOR_ON BLINK_OFF fresh =
  (Ok tt,
   mkState (self fresh)
     (mkEnv (trace (env fresh) ++ wrote 39 [8; 12; 8; 232; 236; 232]) 24
        (nack (env fresh)))).
Proof.
  destruct (set_display_control_encoding (self fresh) (env fresh)
              DISPLAY_ON CURSOR_ON BLINK_OFF) as (Hrun & _).
  - by left.
  - by left.
  - by right.
  - by right.
  - intros k Hk. reflexivity.
  - exact Hrun.
Defined.

(** X20. [set_cursur_shift] with the documented values sends, in
    command mode, the byte [16 + disp_cursor + dir]; it is of 16..28,
    it is read back from the two setup writes, and both values are read
    back from it with the masks 8 and 4. *)
Theorem set_cursur_shift_encoding o e disp_cursor dir :
  disp_cursor = DISPLAY_MOVE ∨ disp_cursor = CURSOR_MOVE →
  dir = MOVE_RIGHT ∨ dir = MOVE_LEFT →
  backlight o = BACKLIGHT_OFF ∨ backlight o = BACKLIGHT_ON →
  quiet e 6 →
  let byte := CURSOR_SHIFT + disp_cursor + dir in
  set_cursur_shift disp_cursor dir (mkState o e) =
    (Ok tt,
     mkState o (mkEnv (trace e ++ wrote (addr o) (send_wire (backlight o) byte COMMAND))
                  (attempts e + 6) (nack e))) ∧
  decode (default 0 (send_wire (backlight o) byte COMMAND !! 0%nat))
         (default 0 (send_wire (backlight o) byte COMMAND !! 3%nat)) =
    (byte, COMMAND) ∧
  16 ≤ byte ≤ 28 ∧ Z.land byte 8 = disp_cursor ∧ Z.land byte 4 = dir.
Proof.
  intros Hdc Hdir Hbl Hq byte.
  assert (Z.lor (Z.lor CURSOR_SHIFT disp_cursor) dir = byte ∧ 16 ≤ byte ≤ 28 ∧
          Z.land byte 8 = disp_cursor ∧ Z.land byte 4 = dir) as (Hb & Hr & H1 & H2).
  { subst byte. destruct Hdc as [-> | ->], Hdir as [-> | ->];
      vm_compute; repeat split; congruence. }
  destruct (command_sent o e byte Hbl ltac:(lia) Hq) as [Hs Hd].
  unfold set_cursur_shift. rewrite Hb. done.
Qed.

Lemma set_cursur_shift_encoding_witness :
  set_cursur_shift DISPLAY_MOVE MOVE_RIGHT fresh =
  (Ok tt,
   mkState (self fresh)
     (mkEnv (trace (env fresh) ++ wrote 39 [24; 28; 24; 200; 204; 200]) 24
        (nack (env fresh)))).
Proof.
  destruct (set_cursur_shift_encoding (self fresh) (env fresh)
              DISPLAY_MOVE MOVE_RIGHT) as (Hrun & _).
  - by left.
  - by left.
  - by right.
  - intros k Hk. reflexivity.
  - exact Hrun.
Defined.

(** X21. [set_function_control] with the documented values sends, in
    command mode, the byte [32 + bit_mode + lines + dots]; it is of
    32..60, it is read back from the two setup writes, and the three
    values are read back from it with the masks 16, 8 and 4. *)
Theorem set_function_control_encoding o e bit_mode lines dots :
  bit_mode = BIT_MODE_8 ∨ bit_mode = BIT_MODE_4 →
  lines = LINES_2 ∨ lines = LINES_1 →
  dots = DOTS_5X10 ∨ dots = DOTS_5X8 →
  backlight o = BACKLIGHT_OFF ∨ backlight o = BACKLIGHT_ON →
  quiet e 6 →
  let byte := FUNCTION_CONTROL + bit_mode + lines + dots in
  set_function_control bit_mode lines dots (mkState o e) =
    (Ok tt,
     mkState o (mkEnv (trace e ++ wrote (addr o) (send_wire (backlight o) byte COMMAND))
                  (attempts e + 6) (nack e))) ∧
  decode (default 0 (send_wire (backlight o) byte COMMAND !! 0%nat))
         (default 0 (send_wire (backlight o) byte COMMAND !! 3%nat)) =
    (byte, COMMAND) ∧
  32 ≤ byte ≤ 60 ∧
  Z.land byte 16 = bit_mode ∧ Z.land byte 8 = lines ∧ Z.land byte 4 = dots.
Proof.
  intros Hbm Hlines Hdots Hbl Hq byte.
  assert (Z.lor (Z.lor (Z.lor FUNCTION_CONTROL bit_mode) lines) dots = byte ∧
          32 ≤ byte ≤ 60 ∧ Z.land byte 16 = bit_mode ∧ Z.land byte 8 = lines ∧
          Z.land byte 4 = dots) as (Hb & Hr & H1 & H2 & H3).
  { subst byte.
    destruct Hbm as [-> | ->], Hlines as [-> | ->], Hdots as [-> | ->];
      vm_compute; repeat split; congruence. }
  destruct (command_sent o e byte Hbl ltac:(lia) Hq) as [Hs Hd].
  unfold set_function_control. rewrite Hb. done.
Qed.

Lemma set_function_control_encoding_witness :
  set_function_control BIT_MODE_4 LINES_2 DOTS_5X8 fresh =
  (Ok tt,
   mkState (self fresh)
     (mkEnv (trace (env fresh) ++ wrote 39 [40; 44; 40; 136; 140; 136]) 24
        (nack (env fresh)))).
Proof.
  destruct (set_function_control_encoding (self fresh) (env fresh)
              BIT_MODE_4 LINES_2 DOTS_5X8) as (Hrun & _).
  - by right.
  - by left.
  - by right.
  - by right.
  - intros k Hk. reflexivity.
  - exact Hrun.
Defined.

(** ** The address commands *)

Lemma lor_address_facts a :
  0 ≤ a ≤ 127 →
  Z.lor SET_DDRAM a = 128 + a ∧
  Z.lor SET_DDRAM (128 + a) = 128 + a ∧
  Z.lor SET_CGRAM (128 + a) = Z.lor SET_DDRAM (Z.lor SET_CGRAM a) ∧
  (a ≤ 63 →
   Z.lor SET_CGRAM a = 64 + a ∧ Z.lor SET_CGRAM (64 + a) = 64 + a ∧
   Z.land (64 + a) 63 = a).
Proof.
  intros Ha.
  assert (forallb
            (λ x, (127 <? x) ||
                  ((Z.lor SET_DDRAM x =? 128 + x) &&
                   (Z.lor SET_DDRAM (128 + x) =? 128 + x) &&
                   (Z.lor SET_CGRAM (128 + x) =? Z.lor SET_DDRAM (Z.lor SET_CGRAM x)) &&
                   ((63 <? x) ||
                    ((Z.lor SET_CGRAM x =? 64 + x) &&
                     (Z.lor SET_CGRAM (64 + x) =? 64 + x) &&
                     (Z.land (64 + x) 63 =? x)))))
            (py_range 0 256) = true) as Hall by (vm_compute; reflexivity).
  pose proof (byte_cases _ Hall a ltac:(lia)) as H.
  apply orb_true_iff in H as [H | H]; [lia|].
  rewrite !andb_true_iff in H. destruct H as (((H1 & H2) & H3) & H4).
  split; [lia|]. split; [lia|]. split; [lia|]. intros Hle.
  apply orb_true_iff in H4 as [H4 | H4]; [lia|].
  rewrite !andb_true_iff in H4. lia.
Qed.

(** X22. [set_ddram_addr] takes an address with or without the bit 7:
    for [a] of 0..127, [set_ddram_addr(128 + a)] does what
    [set_ddram_addr(a)] does, which is to send the byte [128 + a] in
    command mode; this is why [refresh] can pass the entries of the
    address map, 128..231, as they are. *)
Theorem set_ddram_addr_bit7 s a :
  0 ≤ a ≤ 127 →
  set_ddram_addr a s = send (128 + a) COMMAND s ∧
  set_ddram_addr (128 + a) s = set_ddram_addr a s.
Proof.
  intros Ha. destruct (lor_address_facts a Ha) as (H1 & H2 & _).
  unfold set_ddram_addr. by rewrite H1, H2.
Qed.

Lemma set_ddram_addr_bit7_witness :
  set_ddram_addr 212 fresh = set_ddram_addr 84 fresh.
Proof.
  destruct (set_ddram_addr_bit7 fresh 84) as [_ H]; [lia | exact H].
Defined.

(** X23. [set_cgram_addr] does not check its address.  For [a] of 0..63
    it sends the byte [64 + a] in command mode, from which [a] is read
    back with the mask 63; [64 + a] is taken as [a]; and an address
    [128 + a], [a] of 0..127, gives a byte with the bit 7, which is a
    set-DDRAM-address command: the call does what
    [set_ddram_addr(64 | a)] does. *)
Theorem set_cgram_addr_unchecked s a :
  (0 ≤ a ≤ 63 →
   set_cgram_addr a s = send (64 + a) COMMAND s ∧
   Z.land (64 + a) 63 = a ∧
   set_cgram_addr (64 + a) s = set_cgram_addr a s) ∧
  (0 ≤ a ≤ 127 →
   set_cgram_addr (128 + a) s = set_ddram_addr (Z.lor SET_CGRAM a) s).
Proof.
  split.
  - intros Ha. destruct (lor_address_facts a ltac:(lia)) as (_ & _ & _ & H).
    destruct (H ltac:(lia)) as (H1 & H2 & H3).
    unfold set_cgram_addr. by rewrite H1, H2.
  - intros Ha. destruct (lor_address_facts a Ha) as (_ & _ & H & _).
    unfold set_cgram_addr, set_ddram_addr. by rewrite H.
Qed.

Lemma set_cgram_addr_unchecked_witness :
  set_cgram_addr 8 fresh = send 72 COMMAND fresh ∧
  set_cgram_addr 130 fresh = set_ddram_addr 66 fresh.
Proof.
  destruct (set_cgram_addr_unchecked fresh 8) as [H _].
  destruct (H ltac:(lia)) as (H1 & _ & _).
  destruct (set_cgram_addr_unchecked fresh 2) as [_ H2].
  split; [exact H1 | exact (H2 ltac:(lia))].
Defined.

(** ** Reading a refresh back from the wire *)




